(** * The Mesos executor driver of mentos ([malefico/core/executor.py])

    A shallow embedding of [MesosExecutorDriver] and the proofs of the
    properties claimed for it.

    Python values that travel over the wire are JSON documents; the driver
    object is a record; its methods are computations in a state-and-exception
    monad whose state also carries the heap of caller-owned status dictionaries
    and the ordered trace of every effect that leaves the driver (executor
    callbacks, outbound requests, log records, connection control and the
    forced-kill timer). *)

From stdpp Require Import base option list strings gmap fin_maps.
From Stdlib Require Import ZArith NArith Ascii String Strings.Byte Lia.

Set Warnings "-register-all".

Local Open Scope string_scope.
Local Open Scope Z_scope.

(** ** JSON documents *)

(** What [tornado.escape.json_decode] hands to the driver.  An object keeps
    its members in insertion order, as a Python dict does; member names are
    unique and lookup returns the first match.  Floating-point numbers are
    outside the model. *)
Inductive json : Type :=
| JNull
| JBool (b : bool)
| JInt (n : Z)
| JStr (s : string)
| JList (l : list json)
| JDict (d : list (string * json)).

Abbreviation pydict := (list (string * json)).

Module Dict.

(** [d.get(k)] *)
Fixpoint get (k : string) (d : pydict) : option json :=
  match d with
  | [] => None
  | (k', v) :: r => if String.eqb k k' then Some v else get k r
  end.

(** [k in d] *)
Definition contains (k : string) (d : pydict) : bool :=
  match get k d with Some _ => true | None => false end.

(** [d[k] = v]: replaces the value in place when the key is there and
    appends the new member otherwise *)
Fixpoint set (k : string) (v : json) (d : pydict) : pydict :=
  match d with
  | [] => [(k, v)]
  | (k', v') :: r =>
      if String.eqb k k' then (k', v) :: r else (k', v') :: set k v r
  end.

End Dict.

(** Python's [==] on decoded JSON: [True == 1], lists compare element by
    element, dicts compare as maps (member order is irrelevant). *)
Fixpoint py_eq (a b : json) {struct a} : bool :=
  match a, b with
  | JNull, JNull => true
  | JBool x, JBool y => Bool.eqb x y
  | JBool x, JInt n => n =? (if x then 1 else 0)
  | JInt n, JBool x => n =? (if x then 1 else 0)
  | JInt n, JInt m => n =? m
  | JStr s, JStr t => String.eqb s t
  | JList l1, JList l2 =>
      (fix elems (xs ys : list json) {struct xs} : bool :=
         match xs, ys with
         | [], [] => true
         | x :: xs', y :: ys' => py_eq x y && elems xs' ys'
         | _, _ => false
         end) l1 l2
  | JDict d1, JDict d2 =>
      (List.length d1 =? List.length d2)%nat &&
      (fix members (d : pydict) {struct d} : bool :=
         match d with
         | [] => true
         | (k, v) :: r =>
             match Dict.get k d2 with
             | Some w => py_eq v w
             | None => false
             end && members r
         end) d1
  | _, _ => false
  end.

(** Keys of Python dicts: the hashable JSON values.  [hash(True) == hash(1)]
    and [True == 1], so booleans are the integers 0 and 1 as keys; lists and
    dicts are not hashable. *)
Inductive pykey : Type :=
| KNone
| KInt (n : Z)
| KStr (s : string).

#[global] Instance pykey_eq_dec : EqDecision pykey.
Proof. solve_decision. Defined.

#[global] Instance pykey_countable : Countable pykey.
Proof.
  refine (inj_countable'
    (λ k, match k with
          | KNone => inl ()
          | KInt n => inr (inl n)
          | KStr s => inr (inr s)
          end)
    (λ c, match c with
          | inl _ => KNone
          | inr (inl n) => KInt n
          | inr (inr s) => KStr s
          end) _).
  by intros [].
Defined.

Definition hashable (v : json) : option pykey :=
  match v with
  | JNull => Some KNone
  | JBool b => Some (KInt (if b then 1 else 0))
  | JInt n => Some (KInt n)
  | JStr s => Some (KStr s)
  | JList _ | JDict _ => None
  end.

(** [str.lower] on ASCII text (the event names are ASCII) *)
Definition lower_ascii (c : ascii) : ascii :=
  let n := nat_of_ascii c in
  if ((65 <=? n) && (n <=? 90))%nat then ascii_of_nat (n + 32) else c.

Fixpoint lower (s : string) : string :=
  match s with
  | EmptyString => EmptyString
  | String c r => String (lower_ascii c) (lower r)
  end.

(** ** UUIDs *)

(** A [uuid.UUID] is its 128-bit integer; that integer is what hashes and
    compares, so it is the key of [self.updates]. *)
Module UUID.

Abbreviation t := N.

Fixpoint int_of_bytes (acc : N) (bs : list byte) : N :=
  match bs with
  | [] => acc
  | b :: r => int_of_bytes (acc * 256 + Byte.to_N b)%N r
  end.

Fixpoint bytes_of_int (len : nat) (n : N) (tail : list byte) : list byte :=
  match len with
  | O => tail
  | S len' =>
      let b := match Byte.of_N (n mod 256)%N with
               | Some b => b
               | None => x00
               end in
      bytes_of_int len' (n / 256)%N (b :: tail)
  end.

(** [uuid.UUID(bytes=bs)]: [ValueError] unless [bs] has 16 bytes *)
Definition of_bytes (bs : list byte) : option t :=
  if (List.length bs =? 16)%nat then Some (int_of_bytes 0%N bs) else None.

(** [u.bytes] *)
Definition bytes (u : t) : list byte := bytes_of_int 16 u [].

End UUID.

(** ** Exceptions, effects and the method monad *)

(** Instances of Python's [Exception] that the driver, the library calls it
    makes, or the executor's own code can raise. *)
Inductive exn : Type :=
| KeyError (key : string)
| TypeError (what : string)
| ValueError (what : string)
| AssertionError
| AttributeError (name : string)
| ExecutorError (what : string).

Inductive result (A : Type) : Type :=
| Ok (a : A)
| Raise (e : exn).
Arguments Ok {A} a.
Arguments Raise {A} e.

(** A [tornado.httpclient.HTTPRequest].  [body] is the document given to
    [tornado.escape.json_encode]; callbacks are named, not run. *)
Record HTTPRequest : Type := {
  url : string;
  method : string;
  headers : list (string * string);
  body : json;
  streaming_callback : option string;
  header_callback : option string;
  follow_redirects : option bool;
  request_timeout : option Z
}.

(** Everything a method does besides updating the driver's own fields, in
    program order. *)
Inductive effect : Type :=
| Callback (name : string) (args : list json)
| Fetch (req : HTTPRequest)
| DelayKill (grace : Z)
| ConnStop
| ConnAbort
| Log (level : string) (text : string) (args : list json)
| LogException (e : exn).

(** The executor object: its callable attributes.  A callback receives the
    driver and the listed arguments and either returns or raises; what it does
    of its own (including calls back into the driver) is not part of the
    driver's trace. *)
Abbreviation Callable := (list json → option exn).

Record Driver : Type := {
  agent_endpoint : string;
  leading_master : string;
  framework_id : json;
  executor_id : json;
  grace_shutdown_period : Z;
  checkpoint : bool;
  local : bool;
  executor : gmap string Callable;
  framework_info : json;
  executor_info : json;
  tasks : gmap pykey json;
  updates : gmap N json
}.

Abbreviation loc := nat.

Record World : Type := {
  self : Driver;
  heap : gmap loc pydict;
  trace : list effect
}.

Definition M (A : Type) : Type := World → result A * World.

#[global] Instance M_ret : MRet M := λ A a w, (Ok a, w).

#[global] Instance M_bind : MBind M := λ A B f m w,
  match m w with
  | (Ok a, w') => f a w'
  | (Raise e, w') => (Raise e, w')
  end.

Definition raise {A} (e : exn) : M A := λ w, (Raise e, w).

Definition lift {A} (r : result A) : M A := λ w, (r, w).

(** [try: body  except Exception as ex: handler(ex)] *)
Definition try_except {A} (body : M A) (handler : exn → M A) : M A := λ w,
  match body w with
  | (Ok a, w') => (Ok a, w')
  | (Raise e, w') => handler e w'
  end.

Definition get_self : M Driver := λ w, (Ok (self w), w).

Definition modify_self (f : Driver → Driver) : M unit := λ w,
  (Ok tt, {| self := f (self w); heap := heap w; trace := trace w |}).

Definition emit (e : effect) : M unit := λ w,
  (Ok tt, {| self := self w; heap := heap w; trace := trace w ++ [e] |}).

Definition when (c : bool) (m : M unit) : M unit := if c then m else mret tt.

(** [assert c], in an interpreter that runs assertions (no [-O]) *)
Definition assert (c : bool) : M unit :=
  if c then mret tt else raise AssertionError.

(** [v[k]] for a string [k] *)
Definition subscript (v : json) (k : string) : result json :=
  match v with
  | JDict d =>
      match Dict.get k d with
      | Some x => Ok x
      | None => Raise (KeyError k)
      end
  | JList _ => Raise (TypeError "list indices must be integers")
  | JStr _ => Raise (TypeError "string indices must be integers")
  | _ => Raise (TypeError "object is not subscriptable")
  end.

(** [hash(v)], as a dict lookup or store performs it *)
Definition hash (v : json) : result pykey :=
  match hashable v with
  | Some k => Ok k
  | None => Raise (TypeError "unhashable type")
  end.

(** [v.lower()] *)
Definition str_lower (v : json) : result string :=
  match v with
  | JStr s => Ok (lower s)
  | _ => Raise (AttributeError "lower")
  end.

(** [list(m.values())] *)
Definition values {K} `{Countable K} (m : gmap K json) : list json :=
  (map_to_list m).*2.

(** Field assignments on [self] *)
Definition set_framework_info (v : json) (d : Driver) : Driver :=
  {| agent_endpoint := agent_endpoint d; leading_master := leading_master d;
     framework_id := framework_id d; executor_id := executor_id d;
     grace_shutdown_period := grace_shutdown_period d;
     checkpoint := checkpoint d; local := local d; executor := executor d;
     framework_info := v; executor_info := executor_info d;
     tasks := tasks d; updates := updates d |}.

Definition set_executor_info (v : json) (d : Driver) : Driver :=
  {| agent_endpoint := agent_endpoint d; leading_master := leading_master d;
     framework_id := framework_id d; executor_id := executor_id d;
     grace_shutdown_period := grace_shutdown_period d;
     checkpoint := checkpoint d; local := local d; executor := executor d;
     framework_info := framework_info d; executor_info := v;
     tasks := tasks d; updates := updates d |}.

Definition set_tasks (m : gmap pykey json) (d : Driver) : Driver :=
  {| agent_endpoint := agent_endpoint d; leading_master := leading_master d;
     framework_id := framework_id d; executor_id := executor_id d;
     grace_shutdown_period := grace_shutdown_period d;
     checkpoint := checkpoint d; local := local d; executor := executor d;
     framework_info := framework_info d; executor_info := executor_info d;
     tasks := m; updates := updates d |}.

Definition set_updates (m : gmap N json) (d : Driver) : Driver :=
  {| agent_endpoint := agent_endpoint d; leading_master := leading_master d;
     framework_id := framework_id d; executor_id := executor_id d;
     grace_shutdown_period := grace_shutdown_period d;
     checkpoint := checkpoint d; local := local d; executor := executor d;
     framework_info := framework_info d; executor_info := executor_info d;
     tasks := tasks d; updates := m |}.

(** Operations on a dict the caller owns and passes by reference *)
Definition deref (p : loc) : M pydict := λ w,
  match heap w !! p with
  | Some d => (Ok d, w)
  | None => (Raise (TypeError "not a dict"), w)
  end.

Definition contains_at (p : loc) (k : string) : M bool :=
  d ← deref p; mret (Dict.contains k d).

Definition store (p : loc) (d : pydict) : M unit := λ w,
  (Ok tt, {| self := self w; heap := <[p := d]> (heap w); trace := trace w |}).

Definition setitem_at (p : loc) (k : string) (v : json) : M unit :=
  d ← deref p; store p (Dict.set k v d).

Definition getitem_at (p : loc) (k : string) : M json :=
  d ← deref p; lift (subscript (JDict d) k).

(** [tornado.escape.json_encode]: the request body is kept as the document
    it serialises. *)
Definition encode (v : json) : json := v.

(** [log.warn], [logging.info], [log.exception] *)
Definition log_warn (text : string) (args : list json) : M unit :=
  emit (Log "WARNING" text args).

Definition logging_info (text : string) (args : list json) : M unit :=
  emit (Log "INFO" text args).

Definition log_exception (e : exn) : M unit := emit (LogException e).

(** Modelled from the spec: [malefico.core.utils.log_errors] is not in src.
    The spec (4.2) has exceptions of a handler logged; the context manager
    logs an exception that leaves its block and lets it go on. *)
Definition log_errors {A} (body : M A) : M A :=
  try_except body (λ e, log_exception e;; raise e).

(** Modelled from the spec: [MesosConnection.stop] and [MesosConnection.abort]
    are not in src.  The spec (5) has stop close the connection gracefully
    and abort close it at once; each is one effect. *)
Definition stop : M unit := emit ConnStop.
Definition abort : M unit := emit ConnAbort.

(** ** The driver *)

(** What the clock and the random source return when [update] consults them:
    [int(time.time())] and [uuid.uuid4()]. *)
Record Oracle : Type := {
  time_time : Z;
  uuid4 : UUID.t
}.

(** A bound method in the dispatch table: [on_shutdown] and [on_close] take
    no argument besides [self], the other handlers take one. *)
Inductive handler : Type :=
| Method0 (f : M unit)
| Method1 (f : json → M unit).

(** Calling a bound method with positional arguments *)
Definition call_handler (h : handler) (args : list json) : M unit :=
  match h, args with
  | Method0 f, [] => f
  | Method1 f, [a] => f a
  | _, _ => raise (TypeError "wrong number of positional arguments")
  end.

Section Driver.

(** [malefico.core.utils] is not in src; the driver uses three of its
    functions, taken here as they are typed.  [decode_data] returns [None]
    where the Python function raises. *)
Variable encode_data : list byte → string.
Variable decode_data : string → option (list byte).
Variable parse_duration : string → Z.

Definition getenv (env : gmap string string) (k : string) : result string :=
  match env !! k with
  | Some v => Ok v
  | None => Raise (KeyError k)
  end.

(** [bool(env.get(k))] *)
Definition env_flag (env : gmap string string) (k : string) : bool :=
  match env !! k with
  | Some v => negb (String.eqb v "")
  | None => false
  end.

Definition __init__ (env : gmap string string) (executor : gmap string Callable)
    : result Driver :=
  match getenv env "MESOS_AGENT_ENDPOINT" with
  | Raise e => Raise e
  | Ok endpoint =>
  match getenv env "MESOS_FRAMEWORK_ID" with
  | Raise e => Raise e
  | Ok fw =>
  match getenv env "MESOS_EXECUTOR_ID" with
  | Raise e => Raise e
  | Ok ex =>
      Ok {| agent_endpoint := "http://" ++ endpoint;
            leading_master := "http://" ++ endpoint;
            framework_id := JDict [("value", JStr fw)];
            executor_id := JDict [("value", JStr ex)];
            grace_shutdown_period :=
              match env !! "MESOS_EXECUTOR_SHUTDOWN_GRACE_PERIOD" with
              | Some s => if String.eqb s "" then 0 else parse_duration s
              | None => 0
              end;
            checkpoint := env_flag env "MESOS_CHECKPOINT";
            local := env_flag env "MESOS_LOCAL";
            executor := executor;
            framework_info := JNull;
            executor_info := JNull;
            tasks := ∅;
            updates := ∅ |}
  end end end.

(** [self.executor.<name>(self, *args)] *)
Definition call_executor (name : string) (args : list json) : M unit :=
  d ← get_self;
  match executor d !! name with
  | None => raise (AttributeError name)
  | Some f =>
      emit (Callback name args);;
      match f args with
      | None => mret tt
      | Some e => raise e
      end
  end.

Definition json_headers : list (string * string) :=
  [("content-type", "application/json");
   ("accept", "application/json");
   ("connection", "close")].

Definition gen_request (handler : string) : M HTTPRequest :=
  d ← get_self;
  let payload := encode (JDict
    [("type", JStr "SUBSCRIBE");
     ("framework_id", framework_id d);
     ("executor_id", executor_id d);
     ("subscribe", JDict
        [("unacknowledged_tasks", JList (values (tasks d)));
         ("unacknowledged_updates", JList (values (updates d)))])]) in
  mret {| url := leading_master d ++ "/api/v1/executor";
          method := "POST";
          headers := json_headers;
          body := payload;
          streaming_callback := Some "_handlechunks";
          header_callback := Some handler;
          follow_redirects := Some false;
          request_timeout := Some (10 ^ 15) |}.

(** The response callback runs when the agent answers and only logs. *)
Definition _send (payload : json) : M unit :=
  let data := encode payload in
  d ← get_self;
  emit (Fetch {| url := leading_master d ++ "/api/v1/executor";
                 method := "POST";
                 headers := json_headers;
                 body := data;
                 streaming_callback := None;
                 header_callback := None;
                 follow_redirects := None;
                 request_timeout := None |}).

(** [status] is the caller's dict, passed by reference; the payload holds
    that same object and is serialised inside [_send]. *)
Definition update (o : Oracle) (status : loc) : M unit :=
  has_timestamp ← contains_at status "timestamp";
  when (negb has_timestamp)
    (setitem_at status "timestamp" (JInt (time_time o)));;
  has_uuid ← contains_at status "uuid";
  when (negb has_uuid)
    (setitem_at status "uuid" (JStr (encode_data (UUID.bytes (uuid4 o)))));;
  has_source ← contains_at status "source";
  when (negb has_source)
    (setitem_at status "source" (JStr "SOURCE_EXECUTOR"));;
  d ← get_self;
  st ← deref status;
  let payload := JDict
    [("type", JStr "UPDATE");
     ("framework_id", framework_id d);
     ("executor_id", executor_id d);
     ("update", JDict [("status", JDict st)])] in
  _send payload;;
  state ← getitem_at status "state";
  task_id ← getitem_at status "task_id";
  logging_info "Executor sends status update {} for task {}" [state; task_id].

(** The log record shows the message in its transport encoding. *)
Definition message (data : list byte) : M unit :=
  d ← get_self;
  let payload := JDict
    [("type", JStr "MESSAGE");
     ("framework_id", framework_id d);
     ("executor_id", executor_id d);
     ("message", JDict [("data", JStr (encode_data data))])] in
  _send payload;;
  logging_info "Driver sends framework message {}" [JStr (encode_data data)].

Definition is_None (v : json) : bool :=
  match v with JNull => true | _ => false end.

Definition on_subscribed (info : json) : M unit :=
  executor_info' ← lift (subscript info "executor_info");
  framework_info' ← lift (subscript info "framework_info");
  agent_info ← lift (subscript info "agent_info");
  eid ← lift (subscript executor_info' "executor_id");
  d ← get_self;
  assert (py_eq eid (executor_id d));;
  fid ← lift (subscript framework_info' "id");
  assert (py_eq fid (framework_id d));;
  if is_None (executor_info d) || is_None (framework_info d) then
    modify_self (set_executor_info executor_info');;
    modify_self (set_framework_info framework_info');;
    d' ← get_self;
    call_executor "on_registered"
      [executor_info'; framework_info d'; agent_info]
  else
    call_executor "on_reregistered" [agent_info].

(** The thread sleeps [grace_shutdown_period] and then kills the process
    group; starting it is one effect. *)
Definition _delay_kill : M unit :=
  d ← get_self; emit (DelayKill (grace_shutdown_period d)).

Definition on_close : M unit :=
  d ← get_self;
  when (negb (checkpoint d))
    (when (negb (local d)) _delay_kill;;
     call_executor "shutdown" [];;
     abort).

Definition on_launch_group (event : json) : M unit :=
  task_info ← lift (subscript event "task");
  tid ← lift (subscript task_info "task_id");
  task_id ← lift (subscript tid "value");
  k ← lift (hash task_id);
  d ← get_self;
  assert (bool_decide (tasks d !! k = None));;
  modify_self (λ d, set_tasks (<[k := task_info]> (tasks d)) d);;
  call_executor "on_launch" [task_info].

Definition on_launch (event : json) : M unit :=
  task_info ← lift (subscript event "task");
  tid ← lift (subscript task_info "task_id");
  task_id ← lift (subscript tid "value");
  k ← lift (hash task_id);
  d ← get_self;
  assert (bool_decide (tasks d !! k = None));;
  modify_self (λ d, set_tasks (<[k := task_info]> (tasks d)) d);;
  call_executor "on_launch" [task_info].

Definition on_kill (event : json) : M unit :=
  task_id ← lift (subscript event "task_id");
  call_executor "on_kill" [task_id].

(** [decode_data(v)] then [uuid.UUID(bytes=...)] *)
Definition uuid_of (v : json) : result UUID.t :=
  match v with
  | JStr s =>
      match decode_data s with
      | Some bs =>
          match UUID.of_bytes bs with
          | Some u => Ok u
          | None => Raise (ValueError "bytes is not a 16-char string")
          end
      | None => Raise (ValueError "binascii.Error")
      end
  | _ => Raise (TypeError "argument should be bytes, buffer or ASCII string")
  end.

Definition on_acknowledged (event : json) : M unit :=
  tid ← lift (subscript event "task_id");
  task_id ← lift (subscript tid "value");
  u ← lift (subscript event "uuid");
  uuid_ ← lift (uuid_of u);
  modify_self (λ d, set_updates (delete uuid_ (updates d)) d);;
  k ← lift (hash task_id);
  modify_self (λ d, set_tasks (delete k (tasks d)) d).

Definition on_message (event : json) : M unit :=
  data ← lift (subscript event "data");
  call_executor "on_message" [data].

Definition on_error (event : json) : M unit :=
  msg ← lift (subscript event "message");
  call_executor "on_error" [msg].

Definition on_shutdown : M unit :=
  d ← get_self;
  when (negb (local d)) _delay_kill;;
  call_executor "on_shutdown" [];;
  stop.

Definition _handlers : gmap pykey handler :=
  list_to_map
    [(KStr "SUBSCRIBED", Method1 on_subscribed);
     (KStr "MESSAGE", Method1 on_message);
     (KStr "LAUNCH", Method1 on_launch);
     (KStr "LAUNCH_GROUP", Method1 on_launch_group);
     (KStr "KILL", Method1 on_kill);
     (KStr "ACKNOWLEDGED", Method1 on_acknowledged);
     (KStr "SHUTDOWN", Method0 on_shutdown);
     (KStr "ERROR", Method1 on_error);
     (KStr "CLOSE", Method0 on_close)].

(** The body of the [try] block *)
Definition dispatch (message : json) : M unit :=
  ty ← lift (subscript message "type");
  k ← lift (hash ty);
  match _handlers !! k with
  | Some h =>
      _type ← lift (subscript message "type");
      if py_eq _type (JStr "SHUTDOWN") then
        call_handler h []
      else
        name ← lift (str_lower _type);
        arg ← lift (subscript message name);
        call_handler h [arg]
  | None => log_warn "Unhandled event %s" [message]
  end.

(** The coroutine has no suspension point and runs to its end when
    called. *)
Definition _handle_events (message : json) : M unit :=
  log_errors
    (try_except (dispatch message)
       (λ ex, log_warn "Problem dispatching event %s" [message];;
              log_exception ex)).

(** Inbound messages are handled one at a time, in arrival order. *)
Fixpoint handle_all (messages : list json) : M unit :=
  match messages with
  | [] => mret tt
  | m :: rest => _handle_events m;; handle_all rest
  end.

End Driver.

(** ** The transport encoding of byte strings *)

(** Modelled from the spec: [malefico.core.utils.encode_data] and
    [decode_data] are not in src.  The spec (6) has byte strings
    base64-transported: standard alphabet, [=] padding; the decoder accepts
    exactly the encoder's output format. *)
Module Base64.

Definition alphabet : list ascii :=
  list_ascii_of_string
    "ABCDEFGHIJKLMNOPQRSTUVWXYZabcdefghijklmnopqrstuvwxyz0123456789+/".

Definition pad : ascii := "="%char.

Definition char_of (n : N) : ascii := nth (N.to_nat n) alphabet pad.

Fixpoint index_from (i : N) (c : ascii) (l : list ascii) : option N :=
  match l with
  | [] => None
  | x :: r => if Ascii.eqb c x then Some i else index_from (N.succ i) c r
  end.

Definition sextet (c : ascii) : option N := index_from 0%N c alphabet.

Definition byte_of (n : N) : byte :=
  match Byte.of_N (n mod 256)%N with
  | Some b => b
  | None => x00
  end.

Fixpoint encode_bytes (bs : list byte) : list ascii :=
  match bs with
  | [] => []
  | [a] =>
      let n := (Byte.to_N a * 65536)%N in
      [char_of (n / 262144); char_of ((n / 4096) mod 64); pad; pad]
  | [a; b] =>
      let n := (Byte.to_N a * 65536 + Byte.to_N b * 256)%N in
      [char_of (n / 262144); char_of ((n / 4096) mod 64);
       char_of ((n / 64) mod 64); pad]
  | a :: b :: c :: r =>
      let n := (Byte.to_N a * 65536 + Byte.to_N b * 256 + Byte.to_N c)%N in
      char_of (n / 262144) :: char_of ((n / 4096) mod 64)
        :: char_of ((n / 64) mod 64) :: char_of (n mod 64)
        :: encode_bytes r
  end.

(** Modelled from the spec: [encode_data], the base64 text of a byte
    string. *)
Definition encode_data (bs : list byte) : string :=
  string_of_list_ascii (encode_bytes bs).

Fixpoint decode_chars (cs : list ascii) : option (list byte) :=
  match cs with
  | [] => Some []
  | a :: b :: c :: d :: r =>
      match sextet a, sextet b with
      | Some x, Some y =>
          let n2 := (x * 262144 + y * 4096)%N in
          if Ascii.eqb c pad then
            if Ascii.eqb d pad then
              match r with
              | [] => Some [byte_of (n2 / 65536)]
              | _ => None
              end
            else None
          else
            match sextet c with
            | Some z =>
                let n3 := (n2 + z * 64)%N in
                if Ascii.eqb d pad then
                  match r with
                  | [] => Some [byte_of (n3 / 65536); byte_of (n3 / 256)]
                  | _ => None
                  end
                else
                  match sextet d, decode_chars r with
                  | Some t, Some rest =>
                      let n := (n3 + t)%N in
                      Some (byte_of (n / 65536) :: byte_of (n / 256)
                              :: byte_of n :: rest)
                  | _, _ => None
                  end
            | None => None
            end
      | _, _ => None
      end
  | _ => None
  end.

(** Modelled from the spec: [decode_data], the bytes of a base64 text;
    [None] where the text is not well-formed. *)
Definition decode_data (s : string) : option (list byte) :=
  decode_chars (list_ascii_of_string s).

End Base64.

(** ** Vocabulary of the statements *)

(** The keys of the dispatch table *)
Definition known_event_types : list string :=
  ["SUBSCRIBED"; "MESSAGE"; "LAUNCH"; "LAUNCH_GROUP"; "KILL";
   "ACKNOWLEDGED"; "SHUTDOWN"; "ERROR"; "CLOSE"].

(** Modelled from the spec: the executor class is not in src.  The spec (6)
    declares the callback interface as onRegistered, onReregistered, onLaunch,
    onKill, onMessage, onError and onShutdown, the names the handlers of the
    driver call. *)
Definition declared_interface : list string :=
  ["on_registered"; "on_reregistered"; "on_launch"; "on_kill";
   "on_message"; "on_error"; "on_shutdown"].

Definition is_callback (e : effect) : bool :=
  match e with Callback _ _ => true | _ => false end.

Definition is_log (e : effect) : bool :=
  match e with Log _ _ _ | LogException _ => true | _ => false end.

(** The executor callbacks of a trace, in order *)
Definition callbacks (t : list effect) : list effect :=
  List.filter is_callback t.

(** [v[k]] where it does not raise *)
Definition field (v : json) (k : string) : option json :=
  match subscript v k with
  | Ok x => Some x
  | Raise _ => None
  end.

(** The task key and the update token that an ACKNOWLEDGED event carries:
    [event['task_id']['value']] when it is hashable and the 16 bytes that
    [event['uuid']] decodes to. *)
Definition acknowledged_keys (decode_data : string → option (list byte))
    (event : json) : option (pykey * UUID.t) :=
  tid ← field event "task_id";
  task_id ← field tid "value";
  k ← hashable task_id;
  u ← field event "uuid";
  match u with
  | JStr s => bs ← decode_data s; uuid_ ← UUID.of_bytes bs; Some (k, uuid_)
  | _ => None
  end.

(** The task that a LAUNCH or LAUNCH_GROUP message carries, with its key *)
Definition launched_task (message : json) : option (pykey * json) :=
  ty ← field message "type";
  match ty with
  | JStr t =>
      if String.eqb t "LAUNCH" || String.eqb t "LAUNCH_GROUP" then
        event ← field message (lower t);
        task_info ← field event "task";
        tid ← field task_info "task_id";
        task_id ← field tid "value";
        k ← hashable task_id;
        Some (k, task_info)
      else None
  | _ => None
  end.

(** The executor, framework and agent info of a SUBSCRIBED message whose
    identity fields equal those of the driver *)
Definition subscribed_for (d : Driver) (message : json)
    : option (json * json * json) :=
  ty ← field message "type";
  info ← field message "subscribed";
  ei ← field info "executor_info";
  fi ← field info "framework_info";
  ai ← field info "agent_info";
  eid ← field ei "executor_id";
  fid ← field fi "id";
  if py_eq ty (JStr "SUBSCRIBED") && py_eq eid (executor_id d)
     && py_eq fid (framework_id d)
  then Some (ei, fi, ai) else None.

(** RegistrationState is present *)
Definition registered (d : Driver) : bool :=
  negb (is_None (executor_info d) || is_None (framework_info d)).

(** The three defaulted fields of a status and their default values *)
Definition status_defaults (encode_data : list byte → string) (o : Oracle)
    : list (string * json) :=
  [("timestamp", JInt (time_time o));
   ("uuid", JStr (encode_data (UUID.bytes (uuid4 o))));
   ("source", JStr "SOURCE_EXECUTOR")].

(** [if k not in d: d[k] = v] *)
Definition set_default (d : pydict) (kv : string * json) : pydict :=
  if Dict.contains kv.1 d then d else Dict.set kv.1 kv.2 d.

(** The default-assignment step of [update] as a function of the status *)
Definition with_defaults (encode_data : list byte → string) (o : Oracle)
    (st : pydict) : pydict :=
  foldl set_default st (status_defaults encode_data o).

(** The request that [_send] hands to the outbound connection *)
Definition sent (d : Driver) (payload : json) : effect :=
  Fetch {| url := leading_master d ++ "/api/v1/executor";
           method := "POST";
           headers := json_headers;
           body := payload;
           streaming_callback := None;
           header_callback := None;
           follow_redirects := None;
           request_timeout := None |}.

(** The UPDATE document that [update] builds around a status *)
Definition update_payload (d : Driver) (st : pydict) : json :=
  JDict [("type", JStr "UPDATE");
         ("framework_id", framework_id d);
         ("executor_id", executor_id d);
         ("update", JDict [("status", JDict st)])].

(** A raised exception leaves the computation *)
Definition propagates {A} (r : result A * World) : Prop :=
  ∃ e, r.1 = Raise e.

(** The re-registration callbacks that a list of SUBSCRIBED messages gives
    rise to, in order *)
Definition reregistered_calls (d : Driver) (messages : list json)
    : list effect :=
  omap (λ m, (λ x, Callback "on_reregistered" [x.2]) <$> subscribed_for d m)
       messages.

(** What the dispatcher logs when the handling of a message raised *)
Definition problem_log (message : json) (e : exn) : list effect :=
  [Log "WARNING" "Problem dispatching event %s" [message]; LogException e].

Definition add_trace (w : World) (es : list effect) : World :=
  {| self := self w; heap := heap w; trace := trace w ++ es |}.

(** A computation adds no entry to [updates] *)
Definition keeps_updates {A} (m : M A) : Prop :=
  ∀ w, updates (self (m w).2) ⊆ updates (self w).

(** What can happen to a driver: an inbound message reaches the dispatcher,
    the transport closes, the executor reports a status or sends a message,
    the connection asks for a SUBSCRIBE request. *)
Inductive operation : Type :=
| Inbound (message : json)
| Closed
| SendUpdate (o : Oracle) (status : loc)
| SendMessage (data : list byte)
| Subscribe (handler : string).

Definition run_operation (encode_data : list byte → string)
    (decode_data : string → option (list byte)) (op : operation) : M unit :=
  match op with
  | Inbound m => _handle_events decode_data m
  | Closed => on_close
  | SendUpdate o status => update encode_data o status
  | SendMessage data => message encode_data data
  | Subscribe handler => gen_request handler;; mret ()
  end.

(** A history of operations; one that raises does not stop the next *)
Fixpoint run_history (encode_data : list byte → string)
    (decode_data : string → option (list byte)) (ops : list operation)
    (w : World) : World :=
  match ops with
  | [] => w
  | op :: rest =>
      run_history encode_data decode_data rest
        (run_operation encode_data decode_data op w).2
  end.

(** ** Vocabulary of the further properties *)


(** The key under which [on_launch] files a task:
    [task_info['task_id']['value']] *)
Definition task_key (task_info : json) : option pykey :=
  tid ← field task_info "task_id";
  task_id ← field tid "value";
  hashable task_id.

(** Every tracked task is filed under its own task id *)
Definition well_keyed (d : Driver) : Prop :=
  ∀ k v, tasks d !! k = Some v → task_key v = Some k.

(** The 16-byte token of an ACKNOWLEDGED event, where it has one *)
Definition acknowledged_token (decode_data : string → option (list byte))
    (event : json) : option UUID.t :=
  u ← field event "uuid";
  match u with
  | JStr s => bs ← decode_data s; UUID.of_bytes bs
  | _ => None
  end.

(** What [__init__] sets and no method assigns *)
Definition configuration (d : Driver) :=
  (agent_endpoint d, leading_master d, framework_id d, executor_id d,
   grace_shutdown_period d, checkpoint d, local d, executor d).

(** The events whose handler passes one field of the payload to the
    callback of the executor: event type, field, callback *)
Definition forwarding : list (string * string * string) :=
  [("KILL", "task_id", "on_kill");
   ("MESSAGE", "data", "on_message");
   ("ERROR", "message", "on_error")].

Definition is_delay_kill (e : effect) : bool :=
  match e with DelayKill _ => true | _ => false end.

(** The forced-kill timers that a trace started *)
Definition kill_timers (t : list effect) : list effect :=
  List.filter is_delay_kill t.

(** A computation keeps a property of the world, whether it returns or
    raises *)
Definition invariant {A} (I : World → Prop) (m : M A) : Prop :=
  ∀ w, I w → I (m w).2.

(** The ways in which a method changes the fields of the driver: it files
    a task under its id, drops the entry of a token or of a task id, or
    stores the executor and framework info of the first registration. *)
Inductive driver_step (d : Driver) : Driver → Prop :=
| step_track (task_info : json) (k : pykey) :
    task_key task_info = Some k →
    tasks d !! k = None →
    driver_step d (set_tasks (<[k := task_info]> (tasks d)) d)
| step_forget_update (u : UUID.t) :
    driver_step d (set_updates (delete u (updates d)) d)
| step_forget_task (k : pykey) :
    driver_step d (set_tasks (delete k (tasks d)) d)
| step_register (ei fi : json) :
    registered d = false →
    is_None ei = false →
    is_None fi = false →
    driver_step d (set_framework_info fi (set_executor_info ei d)).

(** ** Sample objects *)

Module Sample.

Definition returns : Callable := λ _, None.

Definition raises (what : string) : Callable :=
  λ _, Some (ExecutorError what).

(** An executor with exactly the declared callbacks, all returning *)
Definition plain_executor : gmap string Callable :=
  list_to_map ((λ n, (n, returns)) <$> declared_interface).

(** An executor that also has a [shutdown] attribute *)
Definition executor_with_shutdown : gmap string Callable :=
  <["shutdown" := returns]> plain_executor.

(** An executor whose kill callback fails *)
Definition failing_executor : gmap string Callable :=
  <["on_kill" := raises "kill failed"]> plain_executor.

Definition env : gmap string string :=
  list_to_map
    [("MESOS_AGENT_ENDPOINT", "agent:5051");
     ("MESOS_FRAMEWORK_ID", "F1");
     ("MESOS_EXECUTOR_ID", "E1")].

Definition driver_with (ex : gmap string Callable) : Driver :=
  {| agent_endpoint := "http://agent:5051";
     leading_master := "http://agent:5051";
     framework_id := JDict [("value", JStr "F1")];
     executor_id := JDict [("value", JStr "E1")];
     grace_shutdown_period := 0;
     checkpoint := false;
     local := false;
     executor := ex;
     framework_info := JNull;
     executor_info := JNull;
     tasks := ∅;
     updates := ∅ |}.

Definition driver : Driver := driver_with plain_executor.

Definition world_of (d : Driver) : World :=
  {| self := d; heap := ∅; trace := [] |}.

Definition task (id : string) : json :=
  JDict [("name", JStr "sleep"); ("task_id", JDict [("value", JStr id)])].

Definition launch (id : string) : json :=
  JDict [("type", JStr "LAUNCH"); ("launch", JDict [("task", task id)])].

Definition launch_group (id : string) : json :=
  JDict [("type", JStr "LAUNCH_GROUP");
         ("launch_group", JDict [("task", task id)])].

Definition kill (id : string) : json :=
  JDict [("type", JStr "KILL");
         ("kill", JDict [("task_id", JDict [("value", JStr id)])])].

Definition token : UUID.t := 12345678901234567890123456789%N.

Definition acknowledged (id : string) (u : UUID.t) : json :=
  JDict [("task_id", JDict [("value", JStr id)]);
         ("uuid", JStr (Base64.encode_data (UUID.bytes u)))].

Definition subscribed (agent : string) : json :=
  JDict
    [("type", JStr "SUBSCRIBED");
     ("subscribed", JDict
        [("executor_info", JDict [("executor_id", JDict [("value", JStr "E1")])]);
         ("framework_info", JDict [("id", JDict [("value", JStr "F1")])]);
         ("agent_info", JDict [("hostname", JStr agent)])])].


(** A driver that tracks task T1 and one pending update *)
Definition busy_driver : Driver :=
  set_updates {[ token := JDict [("state", JStr "TASK_RUNNING")] ]}
    (set_tasks {[ KStr "T1" := task "T1" ]} driver).

(** A status with only the fields the caller must give *)
Definition running : pydict :=
  [("task_id", JDict [("value", JStr "T1")]); ("state", JStr "TASK_RUNNING")].

Definition oracle : Oracle := {| time_time := 1478000000; uuid4 := token |}.

Definition later : Oracle := {| time_time := 1478000060; uuid4 := 7%N |}.

Definition world_with_status (st : pydict) : World :=
  {| self := driver; heap := {[ 0%nat := st ]}; trace := [] |}.

(** An ACKNOWLEDGED message for a task and a token *)
Definition acknowledged_message (id : string) (u : UUID.t) : json :=
  JDict [("type", JStr "ACKNOWLEDGED"); ("acknowledged", acknowledged id u)].

(** An ACKNOWLEDGED event whose token has three bytes *)
Definition short_token_event : json :=
  JDict [("task_id", JDict [("value", JStr "T1")]); ("uuid", JStr "AAAA")].

(** An ACKNOWLEDGED event whose task id is a list *)
Definition list_task_event : json :=
  JDict [("task_id", JDict [("value", JList [JStr "T1"])]);
         ("uuid", JStr (Base64.encode_data (UUID.bytes token)))].

(** A SUBSCRIBED message for the executor E2 of framework F1 *)
Definition subscribed_other : json :=
  JDict
    [("type", JStr "SUBSCRIBED");
     ("subscribed", JDict
        [("executor_info", JDict [("executor_id", JDict [("value", JStr "E2")])]);
         ("framework_info", JDict [("id", JDict [("value", JStr "F1")])]);
         ("agent_info", JDict [("hostname", JStr "a1")])])].

Definition shutdown : json :=
  JDict [("type", JStr "SHUTDOWN"); ("shutdown", JDict [])].

Definition close : json := JDict [("type", JStr "CLOSE"); ("close", JDict [])].

(** A LAUNCH message without a task *)
Definition empty_launch : json :=
  JDict [("type", JStr "LAUNCH"); ("launch", JDict [])].

(** A status that names no state *)
Definition stateless : pydict := [("task_id", JDict [("value", JStr "T1")])].

(** A status that has every field *)
Definition complete : pydict :=
  [("task_id", JDict [("value", JStr "T1")]); ("state", JStr "TASK_FINISHED");
   ("timestamp", JInt 1478000000); ("uuid", JStr "AAAAAAAAAAAAAAAAAAAAAA==");
   ("source", JStr "SOURCE_EXECUTOR")].

(** The sample driver after its registration *)
Definition registered_driver : Driver :=
  set_framework_info (JDict [("id", JDict [("value", JStr "F1")])])
    (set_executor_info (JDict [("executor_id", JDict [("value", JStr "E1")])])
       busy_driver).

(** The sample driver in local mode *)
Definition local_driver : Driver :=
  {| agent_endpoint := "http://agent:5051";
     leading_master := "http://agent:5051";
     framework_id := JDict [("value", JStr "F1")];
     executor_id := JDict [("value", JStr "E1")];
     grace_shutdown_period := 5000;
     checkpoint := false;
     local := true;
     executor := executor_with_shutdown;
     framework_info := JNull;
     executor_info := JNull;
     tasks := ∅;
     updates := ∅ |}.

(** A history that launches, reports, is acknowledged, loses the
    transport and is shut down *)
Definition history : list operation :=
  [Inbound (subscribed "a1"); Inbound (launch "T2");
   SendUpdate oracle 0%nat; Inbound (acknowledged_message "T1" token);
   SendMessage [x00; x01]; Inbound (kill "T2"); Subscribe "on_headers";
   Closed; Inbound shutdown].

End Sample.

(** ** Proofs *)

(** Unfolding of the monad's operations *)
Ltac unfold_monad :=
  unfold log_errors, log_warn, logging_info, log_exception, stop, abort,
         when, assert, field in *;
  unfold try_except, mbind, M_bind, mret, M_ret, lift, raise, get_self,
         modify_self, emit in *.

Ltac run := unfold_monad; cbn in *.

Lemma bind_ok {A B} (m : M A) (f : A → M B) (w w' : World) (a : A) :
  m w = (Ok a, w') → (m ≫= f) w = f a w'.
Proof. intros E. unfold mbind, M_bind. by rewrite E. Qed.

Lemma bind_raise {A B} (m : M A) (f : A → M B) (w w' : World) (e : exn) :
  m w = (Raise e, w') → (m ≫= f) w = (Raise e, w').
Proof. intros E. unfold mbind, M_bind. by rewrite E. Qed.

Lemma field_subscript (v : json) (k : string) (x : json) :
  field v k = Some x → subscript v k = Ok x.
Proof. unfold field. destruct (subscript v k); naive_solver. Qed.

Lemma hashable_hash (v : json) (k : pykey) :
  hashable v = Some k → hash v = Ok k.
Proof. unfold hash. by intros ->. Qed.

Lemma world_eta (w : World) :
  {| self := self w; heap := heap w; trace := trace w |} = w.
Proof. by destruct w. Qed.

Lemma values_length {K} `{Countable K} (m : gmap K json) :
  List.length (values m) = size m.
Proof. unfold values. by rewrite length_fmap, length_map_to_list. Qed.

Lemma dict_get_set_eq (k : string) (v : json) (d : pydict) :
  Dict.get k (Dict.set k v d) = Some v.
Proof.
  induction d as [|[k' v'] d IH]; cbn.
  - by rewrite String.eqb_refl.
  - destruct (String.eqb k k') eqn:E; cbn; rewrite E; [done | apply IH].
Qed.

Lemma dict_get_set_ne (k k' : string) (v : json) (d : pydict) :
  k ≠ k' → Dict.get k' (Dict.set k v d) = Dict.get k' d.
Proof.
  intros Hne. induction d as [|[k0 v0] d IH]; cbn.
  - destruct (String.eqb k' k) eqn:E; [|done].
    apply String.eqb_eq in E. congruence.
  - destruct (String.eqb k k0) eqn:E; cbn.
    + apply String.eqb_eq in E. subst k0.
      destruct (String.eqb k' k) eqn:E'; [|done].
      apply String.eqb_eq in E'. congruence.
    + by rewrite IH.
Qed.

(** A defaulted lookup: the old value where there was one, the default at
    the defaulted key, nothing elsewhere *)
Lemma dict_get_set_default (k : string) (kv : string * json) (d : pydict) :
  Dict.get k (set_default d kv) =
    match Dict.get k d with
    | Some x => Some x
    | None => if String.eqb k kv.1 then Some kv.2 else None
    end.
Proof.
  destruct kv as [k0 v0]. unfold set_default, Dict.contains. cbn.
  destruct (String.eqb k k0) eqn:E.
  - apply String.eqb_eq in E. subst k0.
    destruct (Dict.get k d) eqn:G; [done |]. apply dict_get_set_eq.
  - assert (k0 ≠ k) as Hne.
    { intros ->. by rewrite String.eqb_refl in E. }
    destruct (Dict.get k0 d) eqn:G0.
    + by destruct (Dict.get k d).
    + rewrite dict_get_set_ne by done. by destruct (Dict.get k d).
Qed.

Lemma uuid_bytes_length (u : UUID.t) : List.length (UUID.bytes u) = 16%nat.
Proof.
  unfold UUID.bytes.
  assert (∀ n x tl, List.length (UUID.bytes_of_int n x tl)
                    = (n + List.length tl)%nat) as Hlen.
  { induction n as [|n IH]; intros x tl; cbn; [done |].
    rewrite IH. cbn. lia. }
  by rewrite Hlen.
Qed.

Section DriverProofs.

Variable encode_data : list byte → string.
Variable decode_data : string → option (list byte).

(** C3: [gen_request] returns a SUBSCRIBE document that carries the
    driver's framework and executor identity, one unacknowledged_tasks
    record per entry of [tasks] and one unacknowledged_updates record per
    entry of [updates], and it leaves the driver, the heap and the trace
    as they were. *)
Theorem gen_request_subscribe (handler : string) (w : World) :
  ∃ req ts us,
    gen_request handler w = (Ok req, w)
    ∧ field (body req) "type" = Some (JStr "SUBSCRIBE")
    ∧ field (body req) "framework_id" = Some (framework_id (self w))
    ∧ field (body req) "executor_id" = Some (executor_id (self w))
    ∧ (field (body req) "subscribe" ≫= λ s, field s "unacknowledged_tasks")
        = Some (JList ts)
    ∧ (field (body req) "subscribe" ≫= λ s, field s "unacknowledged_updates")
        = Some (JList us)
    ∧ List.length ts = size (tasks (self w))
    ∧ List.length us = size (updates (self w)).
Proof.
  eexists _, (values (tasks (self w))), (values (updates (self w))).
  split; [reflexivity |].
  cbn. repeat split; apply values_length.
Qed.

(** C9: [on_kill] calls the executor's [on_kill] with the task id of the
    event, once, and leaves the driver (tasks, pending updates,
    registration state and every other field) and the heap as they were,
    whether the callback returns or raises. *)
Theorem on_kill_frame (w : World) (event task_id : json) (f : Callable) :
  field event "task_id" = Some task_id →
  executor (self w) !! "on_kill" = Some f →
  let r := on_kill event w in
  r.1 = match f [task_id] with None => Ok () | Some e => Raise e end
  ∧ self r.2 = self w
  ∧ heap r.2 = heap w
  ∧ trace r.2 = (trace w ++ [Callback "on_kill" [task_id]])%list.
Proof.
  intros Hid Hf. apply field_subscript in Hid.
  unfold on_kill, call_executor. run. rewrite Hid. cbn. rewrite Hf. cbn.
  by destruct (f [task_id]).
Qed.

(** C5: an ACKNOWLEDGED event that carries a task id and a 16-byte token
    deletes the token's entry from [updates] and the task's entry from
    [tasks]: each collection loses at most that one entry, an absent key
    leaves its collection as it was, every other entry stays, and nothing
    else changes. *)
Theorem on_acknowledged_removes (w : World) (event : json) (k : pykey)
    (u : UUID.t) :
  acknowledged_keys decode_data event = Some (k, u) →
  let r := on_acknowledged decode_data event w in
  let d := self w in
  let d' := self r.2 in
  r.1 = Ok ()
  ∧ d' = set_tasks (delete k (tasks d)) (set_updates (delete u (updates d)) d)
  ∧ heap r.2 = heap w ∧ trace r.2 = trace w
  ∧ (size (updates d') ≤ size (updates d) ≤ S (size (updates d')))%nat
  ∧ (size (tasks d') ≤ size (tasks d) ≤ S (size (tasks d')))%nat
  ∧ (updates d !! u = None → updates d' = updates d)
  ∧ (tasks d !! k = None → tasks d' = tasks d)
  ∧ (∀ u', u' ≠ u → updates d' !! u' = updates d !! u')
  ∧ (∀ k', k' ≠ k → tasks d' !! k' = tasks d !! k').
Proof.
  unfold acknowledged_keys. intros Hk.
  destruct (field event "task_id") as [tid|] eqn:Htid; [|done].
  cbn in Hk.
  destruct (field tid "value") as [task_id|] eqn:Hval; [|done].
  cbn in Hk.
  destruct (hashable task_id) as [k0|] eqn:Hh; [|done].
  cbn in Hk.
  destruct (field event "uuid") as [uj|] eqn:Hu; [|done].
  cbn in Hk. destruct uj as [| | |s| |]; try done.
  destruct (decode_data s) as [bs|] eqn:Hdec; [|done].
  cbn in Hk.
  destruct (UUID.of_bytes bs) as [u0|] eqn:Hbs; [|done].
  cbn in Hk. injection Hk as -> ->.
  apply field_subscript in Htid, Hval, Hu. apply hashable_hash in Hh.
  unfold on_acknowledged, uuid_of. unfold_monad.
  rewrite Htid, Hval, Hu, Hdec, Hbs, Hh. cbn.
  repeat split.
  - rewrite map_size_delete. destruct (updates (self w) !! u); cbn; lia.
  - rewrite map_size_delete. destruct (updates (self w) !! u); cbn; lia.
  - rewrite map_size_delete. destruct (tasks (self w) !! k); cbn; lia.
  - rewrite map_size_delete. destruct (tasks (self w) !! k); cbn; lia.
  - apply delete_id.
  - apply delete_id.
  - intros u' Hne. by apply lookup_delete_ne.
  - intros k' Hne. by apply lookup_delete_ne.
Qed.

(** *** The update operation *)

Lemma default_step {B} (p : loc) (k : string) (v : json) (rest : M B)
    (w : World) (st : pydict) :
  heap w !! p = Some st →
  (has ← contains_at p k; when (negb has) (setitem_at p k v);; rest) w
  = rest {| self := self w;
            heap := <[p := set_default st (k, v)]> (heap w);
            trace := trace w |}.
Proof.
  intros Hp. unfold contains_at, setitem_at, deref, store, set_default.
  unfold_monad. rewrite Hp. cbn.
  destruct (Dict.contains k st); cbn.
  - by rewrite insert_id, world_eta.
  - by rewrite Hp.
Qed.

(** What [update] does, in one equation *)
Lemma update_run (o : Oracle) (p : loc) (w : World) (st : pydict) :
  heap w !! p = Some st →
  let st' := with_defaults encode_data o st in
  let d := self w in
  update encode_data o p w =
    match Dict.get "state" st', Dict.get "task_id" st' with
    | Some state, Some task_id =>
        (Ok (),
         {| self := d; heap := <[p := st']> (heap w);
            trace := trace w ++
              [sent d (update_payload d st');
               Log "INFO" "Executor sends status update {} for task {}"
                 [state; task_id]] |})
    | Some _, None =>
        (Raise (KeyError "task_id"),
         {| self := d; heap := <[p := st']> (heap w);
            trace := trace w ++ [sent d (update_payload d st')] |})
    | None, _ =>
        (Raise (KeyError "state"),
         {| self := d; heap := <[p := st']> (heap w);
            trace := trace w ++ [sent d (update_payload d st')] |})
    end.
Proof.
  intros Hp. cbn zeta. unfold update.
  erewrite default_step by exact Hp.
  erewrite default_step by apply lookup_insert_eq.
  erewrite default_step by apply lookup_insert_eq.
  cbn [heap self trace]. rewrite !insert_insert_eq.
  unfold with_defaults, status_defaults. cbn [foldl].
  remember (set_default _ _) as st' eqn:Hst'. clear Hst'.
  unfold getitem_at, deref, _send, subscript, encode. unfold_monad.
  cbn. rewrite lookup_insert_eq. cbn. rewrite lookup_insert_eq.
  destruct (Dict.get "state" st') as [state|]; [|done].
  cbn. rewrite lookup_insert_eq.
  destruct (Dict.get "task_id" st') as [task_id|]; [|done].
  cbn. by rewrite <- app_assoc.
Qed.

Lemma with_defaults_get (o : Oracle) (st : pydict) (k : string) :
  Dict.get k (with_defaults encode_data o st) =
    match Dict.get k st with
    | Some x => Some x
    | None => Dict.get k (status_defaults encode_data o)
    end.
Proof.
  unfold with_defaults, status_defaults. cbn [foldl].
  rewrite !dict_get_set_default. cbn [fst snd Dict.get].
  destruct (Dict.get k st); [done |].
  destruct (String.eqb k "timestamp") eqn:E1; [done |].
  by destruct (String.eqb k "uuid") eqn:E2.
Qed.

Lemma with_defaults_contains (o : Oracle) (st : pydict) (k : string) (v : json) :
  (k, v) ∈ status_defaults encode_data o →
  Dict.contains k (with_defaults encode_data o st) = true.
Proof.
  intros Hin. unfold Dict.contains. rewrite with_defaults_get.
  destruct (Dict.get k st); [done |].
  unfold status_defaults in *.
  repeat (apply elem_of_cons in Hin as [Hin | Hin];
          [injection Hin as -> ->; done |]).
  by apply elem_of_nil in Hin.
Qed.

(** Defaulting a status that has the three fields changes nothing *)
Lemma with_defaults_fixed (o o' : Oracle) (st : pydict) :
  with_defaults encode_data o' (with_defaults encode_data o st)
  = with_defaults encode_data o st.
Proof.
  set (st1 := with_defaults encode_data o st).
  assert (∀ k v, (k, v) ∈ status_defaults encode_data o →
                 Dict.contains k st1 = true) as Hc
    by (intros; by eapply with_defaults_contains).
  unfold with_defaults at 1, status_defaults at 1. cbn [foldl].
  unfold set_default. cbn [fst snd].
  rewrite (Hc "timestamp" (JInt (time_time o)))
    by (unfold status_defaults; set_solver).
  rewrite (Hc "uuid" (JStr (encode_data (UUID.bytes (uuid4 o)))))
    by (unfold status_defaults; set_solver).
  by rewrite (Hc "source" (JStr "SOURCE_EXECUTOR"))
    by (unfold status_defaults; set_solver).
Qed.

Lemma update_heap (o : Oracle) (p : loc) (w : World) (st : pydict) :
  heap w !! p = Some st →
  heap (update encode_data o p w).2
  = <[p := with_defaults encode_data o st]> (heap w).
Proof.
  intros Hp. rewrite (update_run o p w st Hp). cbn zeta.
  destruct (Dict.get "state" _); [|done].
  by destruct (Dict.get "task_id" _).
Qed.

(** C7: [update] gives each of timestamp, uuid and source its default
    (the clock reading, the encoding of the fresh 16-byte token,
    SOURCE_EXECUTOR) exactly where the status lacks the field and keeps
    every field the status has; a second [update] of the same status, at
    another time and with another token, leaves it as the first left it. *)
Theorem update_defaults_idempotent (o o' : Oracle) (p : loc) (w : World)
    (st : pydict) :
  heap w !! p = Some st →
  let w1 := (update encode_data o p w).2 in
  ∃ st1,
    heap w1 !! p = Some st1
    ∧ (∀ k, Dict.get k st1 =
            match Dict.get k st with
            | Some x => Some x
            | None => Dict.get k (status_defaults encode_data o)
            end)
    ∧ List.length (UUID.bytes (uuid4 o)) = 16%nat
    ∧ heap (update encode_data o' p w1).2 !! p = Some st1.
Proof.
  intros Hp w1. exists (with_defaults encode_data o st).
  assert (heap w1 !! p = Some (with_defaults encode_data o st)) as Hp1.
  { unfold w1. rewrite (update_heap o p w st Hp). apply lookup_insert_eq. }
  split; [exact Hp1 |].
  split; [apply with_defaults_get |].
  split; [apply uuid_bytes_length |].
  rewrite (update_heap o' p w1 _ Hp1), lookup_insert_eq.
  by rewrite with_defaults_fixed.
Qed.

(** C10: [update] writes its defaults into the caller's own status object:
    after the call that object has timestamp, uuid and source, with the
    default where the field was missing, every field it had keeps its
    value, no other object changes, the UPDATE document sent carries the
    object's new content, and the call returns when the status names its
    state and task. *)
Theorem update_mutates_in_place (o : Oracle) (p : loc) (w : World)
    (st : pydict) :
  heap w !! p = Some st →
  let r := update encode_data o p w in
  ∃ st',
    heap r.2 !! p = Some st'
    ∧ (∀ k v, (k, v) ∈ status_defaults encode_data o →
              is_Some (Dict.get k st')
              ∧ (Dict.get k st = None → Dict.get k st' = Some v))
    ∧ (∀ k v, Dict.get k st = Some v → Dict.get k st' = Some v)
    ∧ (∀ q, q ≠ p → heap r.2 !! q = heap w !! q)
    ∧ sent (self w) (update_payload (self w) st') ∈ trace r.2
    ∧ (is_Some (Dict.get "state" st) → is_Some (Dict.get "task_id" st) →
       r.1 = Ok ()).
Proof.
  intros Hp r. exists (with_defaults encode_data o st).
  split; [unfold r; rewrite (update_heap o p w st Hp);
          apply lookup_insert_eq |].
  split.
  { intros k v Hin. split.
    - pose proof (with_defaults_contains o st k v Hin) as Hc.
      unfold Dict.contains in Hc.
      destruct (Dict.get k (with_defaults encode_data o st)); eauto.
      discriminate.
    - intros Hnone. rewrite with_defaults_get, Hnone.
      unfold status_defaults in *.
      repeat (apply elem_of_cons in Hin as [Hin | Hin];
              [injection Hin as -> ->; done |]).
      by apply elem_of_nil in Hin. }
  split; [intros k v Hk; by rewrite with_defaults_get, Hk |].
  split.
  { intros q Hq. unfold r. rewrite (update_heap o p w st Hp).
    by apply lookup_insert_ne. }
  unfold r. rewrite (update_run o p w st Hp). cbn zeta.
  split.
  - destruct (Dict.get "state" _); [destruct (Dict.get "task_id" _) |];
      cbn [snd trace]; apply elem_of_app; right; apply list_elem_of_here.
  - intros [s Hs] [t Ht].
    rewrite !with_defaults_get, Hs, Ht. done.
Qed.

(** *** The dispatcher *)

Lemma handlers_known (t : string) :
  t ∈ known_event_types →
  _handlers decode_data !! KStr t =
    (if String.eqb t "SUBSCRIBED" then Some (Method1 on_subscribed)
     else if String.eqb t "MESSAGE" then Some (Method1 on_message)
     else if String.eqb t "LAUNCH" then Some (Method1 on_launch)
     else if String.eqb t "LAUNCH_GROUP" then Some (Method1 on_launch_group)
     else if String.eqb t "KILL" then Some (Method1 on_kill)
     else if String.eqb t "ACKNOWLEDGED"
          then Some (Method1 (on_acknowledged decode_data))
     else if String.eqb t "SHUTDOWN" then Some (Method0 on_shutdown)
     else if String.eqb t "ERROR" then Some (Method1 on_error)
     else Some (Method0 on_close)).
Proof.
  unfold known_event_types. intros Hin.
  repeat (apply elem_of_cons in Hin as [-> | Hin]; [reflexivity |]).
  by apply elem_of_nil in Hin.
Qed.


(** The dispatcher returns where the [try] block returns, and logs and
    returns where the block raises. *)
Lemma handle_events_run (message : json) (w : World) :
  _handle_events decode_data message w =
    match dispatch decode_data message w with
    | (Ok a, w') => (Ok a, w')
    | (Raise e, w') => (Ok (), add_trace w' (problem_log message e))
    end.
Proof.
  unfold _handle_events, add_trace, problem_log. unfold_monad.
  destruct (dispatch decode_data message w) as [[[]|e] w']; [done |].
  cbn. by rewrite <- app_assoc.
Qed.

(** Dispatch of a message to a one-argument handler *)
Lemma dispatch_method1 (message arg : json) (t : string)
    (f : json → M unit) (w : World) :
  field message "type" = Some (JStr t) →
  _handlers decode_data !! KStr t = Some (Method1 f) →
  String.eqb t "SHUTDOWN" = false →
  field message (lower t) = Some arg →
  dispatch decode_data message w = f arg w.
Proof.
  intros Hty Hh Hne Harg. apply field_subscript in Hty, Harg.
  unfold dispatch, hash, str_lower. unfold_monad.
  rewrite Hty. cbn -[lookup _handlers]. rewrite Hh. cbn.
  rewrite Hne, Harg. cbn.
  by destruct (f arg w) as [[[]|] ?].
Qed.

Lemma call_executor_run (name : string) (args : list json) (f : Callable)
    (w : World) :
  executor (self w) !! name = Some f →
  call_executor name args w =
    (match f args with None => Ok () | Some e => Raise e end,
     add_trace w [Callback name args]).
Proof.
  intros Hf. unfold call_executor, add_trace. unfold_monad. rewrite Hf.
  cbn. by destruct (f args).
Qed.

(** *** Duplicate launches *)

Lemma launch_duplicate_raises (event task_info : json) (k : pykey)
    (w : World) :
  (field event "task" = Some task_info ∧
   (field task_info "task_id" ≫= λ tid, field tid "value" ≫= hashable)
     = Some k) →
  is_Some (tasks (self w) !! k) →
  on_launch event w = (Raise AssertionError, w)
  ∧ on_launch_group event w = (Raise AssertionError, w).
Proof.
  intros [Htask Hk] [old Hold].
  destruct (field task_info "task_id") as [tid|] eqn:Htid; [|done].
  cbn in Hk.
  destruct (field tid "value") as [task_id|] eqn:Hval; [|done].
  cbn in Hk. apply hashable_hash in Hk.
  apply field_subscript in Htask, Htid, Hval.
  unfold on_launch, on_launch_group. unfold_monad.
  rewrite Htask, Htid, Hval, Hk. cbn. rewrite Hold.
  by rewrite bool_decide_eq_false_2.
Qed.

(** C2 (as amended): a LAUNCH or LAUNCH_GROUP message for a task id that
    is already tracked makes its handler raise [AssertionError] before it
    touches [tasks] or calls the executor; the dispatcher catches the
    exception, logs the message and the exception, and returns: the
    tracked entry, the rest of the driver and the heap are as before and
    no callback ran. *)
Theorem duplicate_launch_is_caught (w : World) (message task_info old : json)
    (k : pykey) :
  launched_task message = Some (k, task_info) →
  tasks (self w) !! k = Some old →
  let r := _handle_events decode_data message w in
  dispatch decode_data message w = (Raise AssertionError, w)
  ∧ r.1 = Ok ()
  ∧ self r.2 = self w
  ∧ tasks (self r.2) !! k = Some old
  ∧ heap r.2 = heap w
  ∧ trace r.2 = (trace w ++ problem_log message AssertionError)%list.
Proof.
  intros Hl Hold. unfold launched_task in Hl.
  destruct (field message "type") as [ty|] eqn:Hty; [|done].
  cbn in Hl. destruct ty as [| | |t| |]; try done.
  destruct (String.eqb t "LAUNCH" || String.eqb t "LAUNCH_GROUP") eqn:Ht;
    [|done].
  destruct (field message (lower t)) as [event|] eqn:Hev; [|done].
  cbn in Hl.
  destruct (field event "task") as [ti|] eqn:Hti; [|done].
  cbn in Hl.
  assert ((field ti "task_id" ≫= λ tid, field tid "value" ≫= hashable)
          = Some k ∧ ti = task_info) as [Hk ->].
  { destruct (field ti "task_id") as [tid|]; [|done]. cbn in *.
    destruct (field tid "value") as [v|]; [|done]. cbn in *.
    destruct (hashable v); [|done]. cbn in *. by injection Hl as -> ->. }
  destruct (launch_duplicate_raises event task_info k w) as [Hone Hgroup];
    [done | by eexists |].
  assert (dispatch decode_data message w = (Raise AssertionError, w)) as Hd.
  { apply orb_true_iff in Ht as [Ht | Ht]; apply String.eqb_eq in Ht;
      subst t.
    - by rewrite (dispatch_method1 message event "LAUNCH" on_launch).
    - by rewrite (dispatch_method1 message event "LAUNCH_GROUP"
                    on_launch_group). }
  cbn zeta. rewrite handle_events_run, Hd. by cbn.
Qed.


(** *** Registration *)

Lemma field_not_None (v x : json) (k : string) :
  field v k = Some x → is_None v = false.
Proof. by destruct v. Qed.

Lemma callbacks_app (t1 t2 : list effect) :
  callbacks (t1 ++ t2) = (callbacks t1 ++ callbacks t2)%list.
Proof. apply List.filter_app. Qed.

Lemma callbacks_problem_log (message : json) (e : exn) :
  callbacks (problem_log message e) = [].
Proof. done. Qed.

(** One SUBSCRIBED message with matching identity, through the
    dispatcher *)
Lemma subscribed_step (w : World) (message ei fi ai : json) (f g : Callable) :
  executor (self w) !! "on_registered" = Some f →
  executor (self w) !! "on_reregistered" = Some g →
  subscribed_for (self w) message = Some (ei, fi, ai) →
  ∃ logs,
    callbacks logs = []
    ∧ _handle_events decode_data message w =
        if registered (self w) then
          (Ok (), add_trace w (Callback "on_reregistered" [ai] :: logs))
        else
          (Ok (),
           add_trace
             {| self := set_framework_info fi
                          (set_executor_info ei (self w));
                heap := heap w; trace := trace w |}
             (Callback "on_registered" [ei; fi; ai] :: logs)).
Proof.
  intros Hf Hg Hs. unfold subscribed_for in Hs.
  destruct (field message "type") as [ty|] eqn:Hty; [|done].
  cbn in Hs.
  destruct (field message "subscribed") as [info|] eqn:Hinfo; [|done].
  cbn in Hs.
  destruct (field info "executor_info") as [ei'|] eqn:Hei; [|done].
  cbn in Hs.
  destruct (field info "framework_info") as [fi'|] eqn:Hfi; [|done].
  cbn in Hs.
  destruct (field info "agent_info") as [ai'|] eqn:Hai; [|done].
  cbn in Hs.
  destruct (field ei' "executor_id") as [eid|] eqn:Heid; [|done].
  cbn in Hs.
  destruct (field fi' "id") as [fid|] eqn:Hfid; [|done].
  cbn in Hs.
  destruct (py_eq ty (JStr "SUBSCRIBED")) eqn:Hsub; [|done].
  destruct (py_eq eid (executor_id (self w))) eqn:Heq1; [|done].
  destruct (py_eq fid (framework_id (self w))) eqn:Heq2; [|done].
  cbn in Hs. injection Hs as -> -> ->.
  assert (ty = JStr "SUBSCRIBED") as ->.
  { destruct ty; try done. cbn in Hsub. by apply String.eqb_eq in Hsub as ->. }
  rewrite handle_events_run.
  rewrite (dispatch_method1 message info "SUBSCRIBED" on_subscribed)
    by done.
  pose proof (field_not_None _ _ _ Heid) as Hne.
  pose proof (field_not_None _ _ _ Hfid) as Hnf.
  apply field_subscript in Hei, Hfi, Hai, Heid, Hfid.
  unfold on_subscribed, registered. unfold_monad.
  rewrite Hei, Hfi, Hai, Heid, Hfid. cbn -[call_executor].
  rewrite Heq1, Heq2. cbn -[call_executor].
  destruct (is_None (executor_info (self w)) || is_None (framework_info (self w)));
    cbn -[call_executor].
  - erewrite call_executor_run by exact Hf. cbn.
    destruct (f [ei; fi; ai]) as [e|].
    + exists (problem_log message e). split; [done |].
      unfold add_trace. cbn. by rewrite <- app_assoc.
    + by exists [].
  - erewrite call_executor_run by exact Hg.
    destruct (g [ai]) as [e|].
    + exists (problem_log message e). split; [done |].
      unfold add_trace. cbn. by rewrite <- app_assoc.
    + by exists [].
Qed.

(** Every SUBSCRIBED message after the first re-registers *)
Lemma resubscribed_all (rest : list json) (w : World) (g f : Callable) :
  executor (self w) !! "on_registered" = Some f →
  executor (self w) !! "on_reregistered" = Some g →
  registered (self w) = true →
  Forall (λ m, is_Some (subscribed_for (self w) m)) rest →
  ∃ new,
    handle_all decode_data rest w = (Ok (), add_trace w new)
    ∧ callbacks new = reregistered_calls (self w) rest.
Proof.
  intros Hf Hg Hreg. revert w Hf Hg Hreg.
  induction rest as [|m rest IH]; intros w Hf Hg Hreg Hall.
  - exists []. unfold add_trace. cbn. by rewrite app_nil_r, world_eta.
  - apply Forall_cons in Hall as [[[[ei fi] ai] Hm] Hall].
    destruct (subscribed_step w m ei fi ai f g Hf Hg Hm) as (logs & Hlogs & Hstep).
    rewrite Hreg in Hstep.
    destruct (IH (add_trace w (Callback "on_reregistered" [ai] :: logs)))
      as (new & Hrun & Hnew); try done.
    exists ((Callback "on_reregistered" [ai] :: logs) ++ new)%list.
    split.
    + cbn [handle_all]. unfold mbind, M_bind. rewrite Hstep, Hrun.
      unfold add_trace. cbn. by rewrite <- app_assoc.
    + rewrite callbacks_app. cbn [callbacks List.filter is_callback].
      fold (callbacks logs). rewrite Hlogs. cbn [app].
      unfold reregistered_calls. cbn [omap list_omap]. rewrite Hm.
      cbn [fmap option_fmap option_map snd]. f_equal. exact Hnew.
Qed.

(** C6: from an unregistered driver, a sequence of SUBSCRIBED messages
    with the driver's identity is handled without failure; the first
    stores its executor and framework info and calls [on_registered] with
    them; every later one calls [on_reregistered]; [on_registered] is
    called that one time only, and the stored info and the driver's
    identity never change afterwards. *)
Theorem subscribed_registers_once (w : World) (first : json)
    (rest : list json) (ei fi ai : json) (f g : Callable) :
  registered (self w) = false →
  executor (self w) !! "on_registered" = Some f →
  executor (self w) !! "on_reregistered" = Some g →
  subscribed_for (self w) first = Some (ei, fi, ai) →
  Forall (λ m, is_Some (subscribed_for (self w) m)) rest →
  let r := handle_all decode_data (first :: rest) w in
  r.1 = Ok ()
  ∧ self r.2 = set_framework_info fi (set_executor_info ei (self w))
  ∧ registered (self r.2) = true
  ∧ framework_id (self r.2) = framework_id (self w)
  ∧ executor_id (self r.2) = executor_id (self w)
  ∧ ∃ new,
      trace r.2 = (trace w ++ new)%list
      ∧ callbacks new =
          Callback "on_registered" [ei; fi; ai]
            :: reregistered_calls (self w) rest.
Proof.
  intros Hreg Hf Hg Hfirst Hrest.
  destruct (subscribed_step w first ei fi ai f g Hf Hg Hfirst)
    as (logs & Hlogs & Hstep).
  rewrite Hreg in Hstep.
  set (w1 := add_trace _ _) in Hstep.
  assert (registered (self w1) = true) as Hreg1.
  { unfold subscribed_for in Hfirst. unfold registered. cbn.
    destruct (field first "type"); [|done]. cbn in Hfirst.
    destruct (field first "subscribed") as [info|]; [|done]. cbn in Hfirst.
    destruct (field info "executor_info") as [ei'|]; [|done]. cbn in Hfirst.
    destruct (field info "framework_info") as [fi'|]; [|done]. cbn in Hfirst.
    destruct (field info "agent_info"); [|done]. cbn in Hfirst.
    destruct (field ei' "executor_id") eqn:He; [|done]. cbn in Hfirst.
    destruct (field fi' "id") eqn:Hi; [|done]. cbn in Hfirst.
    destruct (_ && _); [|done]. injection Hfirst as -> -> ->.
    by rewrite (field_not_None _ _ _ He), (field_not_None _ _ _ Hi). }
  destruct (resubscribed_all rest w1 g f Hf Hg Hreg1 Hrest)
    as (new & Hrun & Hnew).
  assert (handle_all decode_data (first :: rest) w
          = (Ok (), add_trace w1 new)) as ->.
  { cbn [handle_all]. by rewrite (bind_ok _ _ _ _ _ Hstep). }
  cbn zeta. cbn [fst snd].
  do 5 (split; [done |]).
  exists ((Callback "on_registered" [ei; fi; ai] :: logs) ++ new)%list.
  split.
  - unfold w1, add_trace. cbn. by rewrite <- app_assoc.
  - rewrite callbacks_app. cbn [callbacks List.filter is_callback].
    fold (callbacks logs). rewrite Hlogs. cbn [app]. f_equal. exact Hnew.
Qed.

(** *** No operation records a pending update *)

Lemma keeps_ret {A} (a : A) : keeps_updates (mret a).
Proof. by intros w. Qed.

Lemma keeps_raise {A} (e : exn) : keeps_updates (raise (A := A) e).
Proof. by intros w. Qed.

Lemma keeps_lift {A} (r : result A) : keeps_updates (lift r).
Proof. by intros w. Qed.

Lemma keeps_get_self : keeps_updates get_self.
Proof. by intros w. Qed.

Lemma keeps_emit (e : effect) : keeps_updates (emit e).
Proof. by intros w. Qed.

Lemma keeps_modify_self (f : Driver → Driver) :
  (∀ d, updates (f d) ⊆ updates d) → keeps_updates (modify_self f).
Proof. intros Hf w. apply Hf. Qed.

Lemma keeps_bind {A B} (m : M A) (f : A → M B) :
  keeps_updates m → (∀ a, keeps_updates (f a)) → keeps_updates (m ≫= f).
Proof.
  intros Hm Hf w. specialize (Hm w). unfold mbind, M_bind.
  destruct (m w) as [[a|e] w1]; [|done].
  etrans; [apply Hf | exact Hm].
Qed.

Lemma keeps_try_except {A} (body : M A) (handler : exn → M A) :
  keeps_updates body → (∀ e, keeps_updates (handler e)) →
  keeps_updates (try_except body handler).
Proof.
  intros Hb Hh w. specialize (Hb w). unfold try_except.
  destruct (body w) as [[a|e] w1]; [done |].
  etrans; [apply Hh | exact Hb].
Qed.

Lemma keeps_deref (p : loc) : keeps_updates (deref p).
Proof. intros w. unfold deref. by destruct (heap w !! p). Qed.

Lemma keeps_store (p : loc) (d : pydict) : keeps_updates (store p d).
Proof. by intros w. Qed.

Create HintDb keeps.
#[local] Hint Resolve keeps_ret keeps_raise keeps_lift keeps_get_self
  keeps_emit keeps_deref keeps_store : keeps.

(** Walks a method body: binds, branches, then the primitive operations *)
Ltac keeps :=
  repeat first
    [ apply keeps_bind; [| intros ?]
    | apply keeps_try_except; [| intros ?]
    | apply keeps_modify_self; intros ?; cbn
    | match goal with
      | |- keeps_updates (if ?c then _ else _) => destruct c
      | |- keeps_updates (match ?x with _ => _ end) => destruct x
      end
    | apply delete_subseteq
    | solve [auto with keeps] ].

Lemma keeps_call_executor (name : string) (args : list json) :
  keeps_updates (call_executor name args).
Proof. unfold call_executor. keeps. Qed.

#[local] Hint Resolve keeps_call_executor : keeps.

Lemma keeps_handlers (k : pykey) (h : handler) (args : list json) :
  _handlers decode_data !! k = Some h → keeps_updates (call_handler h args).
Proof.
  unfold _handlers. intros Hh. apply elem_of_list_to_map_2 in Hh.
  repeat (apply elem_of_cons in Hh as [Hh | Hh];
          [injection Hh as -> ->;
           unfold call_handler, on_subscribed, on_message, on_launch,
             on_launch_group, on_kill, on_acknowledged, on_shutdown, on_error,
             on_close, _delay_kill, when, assert, stop, abort;
           keeps |]).
  by apply elem_of_nil in Hh.
Qed.

Lemma keeps_handle_events (message : json) :
  keeps_updates (_handle_events decode_data message).
Proof.
  unfold _handle_events, log_errors, log_warn, log_exception.
  apply keeps_try_except; [| intros e; keeps].
  apply keeps_try_except; [| intros e; keeps].
  unfold dispatch.
  apply keeps_bind; [keeps | intros ty].
  apply keeps_bind; [keeps | intros k].
  destruct (_handlers decode_data !! k) as [h|] eqn:Hh; [| keeps].
  apply keeps_bind; [keeps | intros _type].
  destruct (py_eq _type (JStr "SHUTDOWN")); [by eapply keeps_handlers |].
  apply keeps_bind; [keeps | intros name].
  apply keeps_bind; [keeps | intros arg].
  by eapply keeps_handlers.
Qed.

Lemma keeps_run_operation (op : operation) :
  keeps_updates (run_operation encode_data decode_data op).
Proof.
  destruct op as [m| |o p|data|handler]; cbn [run_operation].
  - apply keeps_handle_events.
  - unfold on_close, _delay_kill, when, abort. keeps.
  - unfold update, contains_at, setitem_at, getitem_at, _send, when,
      logging_info. keeps.
  - unfold message, _send, logging_info. keeps.
  - unfold gen_request. keeps.
Qed.

(** From a driver without pending updates no history of operations leads
    to a driver with one. *)
Lemma updates_stay_empty (ops : list operation) (w : World) :
  updates (self w) = ∅ →
  updates (self (run_history encode_data decode_data ops w)) = ∅.
Proof.
  revert w. induction ops as [|op ops IH]; intros w Hw; [done |].
  cbn [run_history]. apply IH.
  pose proof (keeps_run_operation op w) as Hsub. rewrite Hw in Hsub.
  apply map_empty. intros u.
  eapply lookup_weaken_None; [apply lookup_empty | exact Hsub].
Qed.

End DriverProofs.

(** ** The sample driver at work *)

Lemma init_sample (parse_duration : string → Z) :
  __init__ parse_duration Sample.env Sample.plain_executor = Ok Sample.driver.
Proof. reflexivity. Qed.


(** C1: [update] changes no field of the driver, so it does not store the
    status in [updates]; no other operation stores one either, and
    [updates] of the sample driver is empty after every history.  A status
    update sent by the sample driver is posted to the agent and returns,
    [updates] is still empty, and the next SUBSCRIBE lists no unacknowledged
    update. *)
Theorem update_does_not_record :
  (∀ encode_data o p w, self (update encode_data o p w).2 = self w)
  ∧ (∀ encode_data decode_data ops h,
       updates (self (run_history encode_data decode_data ops
                        {| self := Sample.driver; heap := h; trace := [] |}))
       = ∅)
  ∧ let r := update Base64.encode_data Sample.oracle 0%nat
               (Sample.world_with_status Sample.running) in
    r.1 = Ok ()
    ∧ (∃ st info, trace r.2 = [sent Sample.driver
                                 (update_payload Sample.driver st); info]
                  ∧ Dict.get "uuid" st = Some (JStr "AAAAACfkGzJGvsmxbjmBFQ=="))
    ∧ updates (self r.2) = ∅
    ∧ ∃ req, (gen_request "on_headers" r.2).1 = Ok req
             ∧ (field (body req) "subscribe"
                  ≫= λ s, field s "unacknowledged_updates") = Some (JList []).
Proof.
  split; [| split].
  - intros encode_data o p w.
    destruct (heap w !! p) as [st|] eqn:Hp.
    + rewrite (update_run encode_data o p w st Hp). cbn zeta.
      destruct (Dict.get "state" _); [|done].
      by destruct (Dict.get "task_id" _).
    + unfold update, contains_at, deref. unfold_monad. by rewrite Hp.
  - intros encode_data decode_data ops h. by apply updates_stay_empty.
  - cbn zeta. split; [reflexivity |].
    split; [eexists _, _; split; reflexivity |].
    split; [reflexivity |].
    eexists. split; reflexivity.
Qed.

(** C4: on a CLOSE with checkpoint and local both off, [on_close] starts the
    forced-kill timer and then looks up the attribute [shutdown] of the
    executor, not [on_shutdown].  With an executor that has the declared
    callbacks the lookup raises [AttributeError]: no callback runs and the
    connection is not aborted.  With an executor that also has [shutdown],
    that attribute is called and [on_shutdown] is not.  The SHUTDOWN handler
    calls [on_shutdown]. *)
Theorem on_close_calls_shutdown_attribute :
  (checkpoint Sample.driver = false ∧ local Sample.driver = false)
  ∧ on_close (Sample.world_of Sample.driver)
    = (Raise (AttributeError "shutdown"),
       add_trace (Sample.world_of Sample.driver) [DelayKill 0])
  ∧ on_close (Sample.world_of (Sample.driver_with Sample.executor_with_shutdown))
    = (Ok (),
       add_trace (Sample.world_of (Sample.driver_with Sample.executor_with_shutdown))
         [DelayKill 0; Callback "shutdown" []; ConnAbort])
  ∧ on_shutdown (Sample.world_of Sample.driver)
    = (Ok (),
       add_trace (Sample.world_of Sample.driver)
         [DelayKill 0; Callback "on_shutdown" []; ConnStop]).
Proof. repeat split. Qed.

(** C2 (as stated) fails: the sample driver tracks T1, a LAUNCH for T1 is
    dispatched, and no exception leaves the dispatcher. *)
Lemma duplicate_launch_does_not_propagate :
  launched_task (Sample.launch "T1") = Some (KStr "T1", Sample.task "T1")
  ∧ is_Some (tasks Sample.busy_driver !! KStr "T1")
  ∧ ¬ propagates (_handle_events Base64.decode_data (Sample.launch "T1")
                    (Sample.world_of Sample.busy_driver)).
Proof.
  split; [reflexivity |]. split; [by eexists |].
  intros [e He]. vm_compute in He. discriminate.
Qed.

Lemma duplicate_launch_is_caught_witness :
  let w := Sample.world_of Sample.busy_driver in
  let message := Sample.launch_group "T1" in
  let r := _handle_events Base64.decode_data message w in
  launched_task message = Some (KStr "T1", Sample.task "T1")
  ∧ tasks (self w) !! KStr "T1" = Some (Sample.task "T1")
  ∧ dispatch Base64.decode_data message w = (Raise AssertionError, w)
  ∧ r.1 = Ok ()
  ∧ self r.2 = self w
  ∧ tasks (self r.2) !! KStr "T1" = Some (Sample.task "T1")
  ∧ heap r.2 = heap w
  ∧ trace r.2 = (trace w ++ problem_log message AssertionError)%list.
Proof.
  cbn zeta. split; [reflexivity |]. split; [reflexivity |].
  apply (duplicate_launch_is_caught Base64.decode_data
           (Sample.world_of Sample.busy_driver) (Sample.launch_group "T1")
           (Sample.task "T1") (Sample.task "T1") (KStr "T1"));
    reflexivity.
Defined.

Example gen_request_busy_driver :
  ∃ req,
    gen_request "on_headers" (Sample.world_of Sample.busy_driver)
    = (Ok req, Sample.world_of Sample.busy_driver)
    ∧ (field (body req) "subscribe" ≫= λ s, field s "unacknowledged_tasks")
        = Some (JList [Sample.task "T1"])
    ∧ (field (body req) "subscribe" ≫= λ s, field s "unacknowledged_updates")
        = Some (JList [JDict [("state", JStr "TASK_RUNNING")]]).
Proof. eexists. repeat split. Qed.

Lemma on_kill_frame_witness :
  let w := Sample.world_of Sample.busy_driver in
  let task_id := JDict [("value", JStr "T1")] in
  let event := JDict [("task_id", task_id)] in
  let r := on_kill event w in
  field event "task_id" = Some task_id
  ∧ executor (self w) !! "on_kill" = Some Sample.returns
  ∧ r.1 = Ok ()
  ∧ self r.2 = self w
  ∧ heap r.2 = heap w
  ∧ trace r.2 = [Callback "on_kill" [task_id]].
Proof.
  cbn zeta. split; [reflexivity |]. split; [reflexivity |].
  apply (on_kill_frame (Sample.world_of Sample.busy_driver)
           (JDict [("task_id", JDict [("value", JStr "T1")])])
           (JDict [("value", JStr "T1")]) Sample.returns);
    reflexivity.
Defined.

Lemma on_acknowledged_removes_witness :
  let w := Sample.world_of Sample.busy_driver in
  let event := Sample.acknowledged "T1" Sample.token in
  let r := on_acknowledged Base64.decode_data event w in
  acknowledged_keys Base64.decode_data event = Some (KStr "T1", Sample.token)
  ∧ r.1 = Ok ()
  ∧ updates (self r.2) = ∅
  ∧ tasks (self r.2) = ∅.
Proof.
  cbn zeta. split; [reflexivity |].
  destruct (on_acknowledged_removes Base64.decode_data
              (Sample.world_of Sample.busy_driver)
              (Sample.acknowledged "T1" Sample.token)
              (KStr "T1") Sample.token eq_refl) as (Hok & Hself & _).
  split; [exact Hok |]. rewrite Hself. split; reflexivity.
Defined.

Lemma subscribed_registers_once_witness :
  let w := Sample.world_of Sample.driver in
  let first := Sample.subscribed "a1" in
  let rest := [Sample.subscribed "a2"; Sample.subscribed "a3"] in
  let ei := JDict [("executor_id", JDict [("value", JStr "E1")])] in
  let fi := JDict [("id", JDict [("value", JStr "F1")])] in
  let r := handle_all Base64.decode_data (first :: rest) w in
  registered (self w) = false
  ∧ subscribed_for (self w) first
    = Some (ei, fi, JDict [("hostname", JStr "a1")])
  ∧ Forall (λ m, is_Some (subscribed_for (self w) m)) rest
  ∧ r.1 = Ok ()
  ∧ executor_info (self r.2) = ei
  ∧ framework_info (self r.2) = fi
  ∧ framework_id (self r.2) = framework_id (self w)
  ∧ executor_id (self r.2) = executor_id (self w)
  ∧ callbacks (trace r.2) =
      [Callback "on_registered" [ei; fi; JDict [("hostname", JStr "a1")]];
       Callback "on_reregistered" [JDict [("hostname", JStr "a2")]];
       Callback "on_reregistered" [JDict [("hostname", JStr "a3")]]].
Proof.
  cbn zeta.
  assert (Forall (λ m, is_Some (subscribed_for Sample.driver m))
            [Sample.subscribed "a2"; Sample.subscribed "a3"]) as Hrest
    by (repeat constructor; by eexists).
  split; [reflexivity |]. split; [reflexivity |]. split; [exact Hrest |].
  destruct (subscribed_registers_once Base64.decode_data
              (Sample.world_of Sample.driver) (Sample.subscribed "a1")
              [Sample.subscribed "a2"; Sample.subscribed "a3"]
              (JDict [("executor_id", JDict [("value", JStr "E1")])])
              (JDict [("id", JDict [("value", JStr "F1")])])
              (JDict [("hostname", JStr "a1")])
              Sample.returns Sample.returns
              eq_refl eq_refl eq_refl eq_refl Hrest)
    as (Hok & Hself & _ & Hfw & Hex & new & Htrace & Hcalls).
  split; [exact Hok |]. rewrite Hself.
  split; [reflexivity |]. split; [reflexivity |].
  split; [reflexivity |]. split; [reflexivity |].
  rewrite Htrace. exact Hcalls.
Defined.

Lemma update_defaults_idempotent_witness :
  let w := Sample.world_with_status Sample.running in
  let w1 := (update Base64.encode_data Sample.oracle 0%nat w).2 in
  heap w !! 0%nat = Some Sample.running
  ∧ ∃ st1,
      heap w1 !! 0%nat = Some st1
      ∧ (∀ k, Dict.get k st1 =
              match Dict.get k Sample.running with
              | Some x => Some x
              | None => Dict.get k
                          (status_defaults Base64.encode_data Sample.oracle)
              end)
      ∧ List.length (UUID.bytes (uuid4 Sample.oracle)) = 16%nat
      ∧ heap (update Base64.encode_data Sample.later 0%nat w1).2 !! 0%nat
        = Some st1.
Proof.
  cbn zeta. split; [reflexivity |].
  apply (update_defaults_idempotent Base64.encode_data Sample.oracle
           Sample.later 0%nat (Sample.world_with_status Sample.running)
           Sample.running).
  reflexivity.
Defined.

Lemma update_mutates_in_place_witness :
  let w := Sample.world_with_status Sample.running in
  let r := update Base64.encode_data Sample.oracle 0%nat w in
  heap w !! 0%nat = Some Sample.running
  ∧ ∃ st',
      heap r.2 !! 0%nat = Some st'
      ∧ (∀ k v, (k, v) ∈ status_defaults Base64.encode_data Sample.oracle →
                is_Some (Dict.get k st')
                ∧ (Dict.get k Sample.running = None → Dict.get k st' = Some v))
      ∧ (∀ k v, Dict.get k Sample.running = Some v → Dict.get k st' = Some v)
      ∧ (∀ q, q ≠ 0%nat → heap r.2 !! q = heap w !! q)
      ∧ sent (self w) (update_payload (self w) st') ∈ trace r.2
      ∧ (is_Some (Dict.get "state" Sample.running) →
         is_Some (Dict.get "task_id" Sample.running) →
         r.1 = Ok ()).
Proof.
  cbn zeta. split; [reflexivity |].
  apply (update_mutates_in_place Base64.encode_data Sample.oracle 0%nat
           (Sample.world_with_status Sample.running) Sample.running).
  reflexivity.
Defined.


(** ** Further properties of the driver *)

Section FurtherProofs.

Variable encode_data : list byte → string.
Variable decode_data : string → option (list byte).
Variable parse_duration : string → Z.

(** *** Construction *)


(** *** Launches *)

(** A LAUNCH or LAUNCH_GROUP message for a task id that is not tracked,
    through the dispatcher: the task is filed before the executor is called *)
Lemma launch_step (w : World) (message task_info : json) (k : pykey) :
  launched_task message = Some (k, task_info) →
  tasks (self w) !! k = None →
  ∃ new,
    _handle_events decode_data message w
    = (Ok (),
       add_trace
         {| self := set_tasks (<[k := task_info]> (tasks (self w))) (self w);
            heap := heap w; trace := trace w |} new)
    ∧ callbacks new =
        match executor (self w) !! "on_launch" with
        | Some _ => [Callback "on_launch" [task_info]]
        | None => []
        end.
Proof.
  intros Hl Hfresh. unfold launched_task in Hl.
  destruct (field message "type") as [ty|] eqn:Hty; [|done].
  cbn in Hl. destruct ty as [| | |t| |]; try done.
  destruct (String.eqb t "LAUNCH" || String.eqb t "LAUNCH_GROUP") eqn:Ht;
    [|done].
  destruct (field message (lower t)) as [event|] eqn:Hev; [|done].
  cbn in Hl.
  destruct (field event "task") as [ti|] eqn:Hti; [|done].
  cbn in Hl.
  destruct (field ti "task_id") as [tid|] eqn:Htid; [|done].
  cbn in Hl.
  destruct (field tid "value") as [task_id|] eqn:Hval; [|done].
  cbn in Hl.
  destruct (hashable task_id) as [k0|] eqn:Hh; [|done].
  cbn in Hl. injection Hl as -> ->.
  apply hashable_hash in Hh.
  assert (dispatch decode_data message w
          = call_executor "on_launch" [task_info]
              {| self := set_tasks (<[k := task_info]> (tasks (self w))) (self w);
                 heap := heap w; trace := trace w |}) as Hd.
  { apply field_subscript in Hti, Htid, Hval.
    apply orb_true_iff in Ht as [Ht | Ht]; apply String.eqb_eq in Ht; subst t.
    - rewrite (dispatch_method1 decode_data message event "LAUNCH" on_launch)
        by done.
      unfold on_launch. unfold_monad. rewrite Hti, Htid, Hval, Hh. cbn.
      rewrite Hfresh. rewrite bool_decide_eq_true_2 by done.
      by destruct (call_executor _ _ _) as [[[]|] ?].
    - rewrite (dispatch_method1 decode_data message event "LAUNCH_GROUP"
                 on_launch_group) by done.
      unfold on_launch_group. unfold_monad. rewrite Hti, Htid, Hval, Hh. cbn.
      rewrite Hfresh. rewrite bool_decide_eq_true_2 by done.
      by destruct (call_executor _ _ _) as [[[]|] ?]. }
  rewrite handle_events_run, Hd. clear Hd.
  unfold call_executor. unfold_monad. cbn.
  destruct (executor (self w) !! "on_launch") as [f|]; cbn.
  - destruct (f [task_info]) as [e|].
    + exists (Callback "on_launch" [task_info] :: problem_log message e).
      split; [|done]. unfold add_trace. cbn. by rewrite <- app_assoc.
    + by exists [Callback "on_launch" [task_info]].
  - by exists (problem_log message (AttributeError "on_launch")).
Qed.

(** X2: a LAUNCH or LAUNCH_GROUP message for a task id that is not tracked
    files the task under its id before the executor is called: the
    dispatcher returns, [tasks] has one entry more, nothing else in the
    driver or the heap changes, and [on_launch] is called once with the task
    when the executor has it.  The task is tracked also when the callback
    raises or is missing. *)
Theorem launch_tracks_task (w : World) (message task_info : json) (k : pykey) :
  launched_task message = Some (k, task_info) →
  tasks (self w) !! k = None →
  let r := _handle_events decode_data message w in
  r.1 = Ok ()
  ∧ self r.2 = set_tasks (<[k := task_info]> (tasks (self w))) (self w)
  ∧ tasks (self r.2) !! k = Some task_info
  ∧ size (tasks (self r.2)) = S (size (tasks (self w)))
  ∧ heap r.2 = heap w
  ∧ ∃ new,
      trace r.2 = (trace w ++ new)%list
      ∧ callbacks new =
          match executor (self w) !! "on_launch" with
          | Some _ => [Callback "on_launch" [task_info]]
          | None => []
          end.
Proof.
  intros Hl Hfresh.
  destruct (launch_step w message task_info k Hl Hfresh) as (new & -> & Hnew).
  cbn. split; [done |]. split; [done |].
  split; [apply lookup_insert_eq |].
  split; [by apply map_size_insert_None |].
  split; [done |]. by exists new.
Qed.

(** X3: LAUNCH messages for pairwise different task ids, none of them
    tracked, are all handled and all filed: [tasks] grows by the number of
    messages, each task is found under its id, and the entries that were
    there stay. *)
Theorem launches_are_counted (messages : list json)
    (launched : list (pykey * json)) (w : World) :
  Forall2 (λ m kt, launched_task m = Some kt) messages launched →
  NoDup launched.*1 →
  (∀ k, k ∈ launched.*1 → tasks (self w) !! k = None) →
  let r := handle_all decode_data messages w in
  r.1 = Ok ()
  ∧ size (tasks (self r.2))
    = (size (tasks (self w)) + List.length messages)%nat
  ∧ (∀ k ti, (k, ti) ∈ launched → tasks (self r.2) !! k = Some ti)
  ∧ (∀ k, k ∉ launched.*1 → tasks (self r.2) !! k = tasks (self w) !! k)
  ∧ updates (self r.2) = updates (self w).
Proof.
  intros Hall. revert w.
  induction Hall as [|m [k ti] messages launched Hm Hall IH];
    intros w Hnodup Hfresh.
  - cbn. split; [done |]. split; [lia |]. split; [|done].
    intros k ti Hin. by apply elem_of_nil in Hin.
  - cbn in Hnodup. apply NoDup_cons in Hnodup as [Hk Hnodup].
    destruct (launch_step w m ti k Hm) as (new & Hstep & _).
    { apply Hfresh. cbn. apply list_elem_of_here. }
    set (w1 := add_trace _ new) in Hstep.
    destruct (IH w1 Hnodup) as (Hok & Hsize & Hin & Hout & Hupd).
    { intros k' Hk'. unfold w1. cbn. rewrite lookup_insert_ne.
      - apply Hfresh. cbn. by apply list_elem_of_further.
      - by intros ->. }
    cbn zeta. cbn [handle_all]. rewrite (bind_ok _ _ _ _ _ Hstep).
    split; [exact Hok |].
    split.
    { rewrite Hsize. unfold w1. cbn. rewrite map_size_insert_None.
      - lia.
      - apply Hfresh. cbn. apply list_elem_of_here. }
    split.
    { intros k' ti' Hin'. apply elem_of_cons in Hin' as [Heq | Hin'].
      - injection Heq as -> ->. rewrite (Hout k Hk). unfold w1. cbn.
        apply lookup_insert_eq.
      - by apply Hin. }
    split; [|exact Hupd].
    intros k' Hk'. cbn in Hk'. apply not_elem_of_cons in Hk' as [Hne Hk'].
    rewrite (Hout k' Hk'). unfold w1. cbn. by apply lookup_insert_ne.
Qed.

(** *** Acknowledgements *)

Lemma uuid_of_token (event v : json) :
  field event "uuid" = Some v →
  acknowledged_token decode_data event
  = match uuid_of decode_data v with Ok u => Some u | Raise _ => None end.
Proof.
  intros Hv. unfold acknowledged_token, uuid_of. rewrite Hv. cbn.
  destruct v as [| | |s| |]; try done.
  destruct (decode_data s) as [bs|]; [|done]. cbn.
  by destruct (UUID.of_bytes bs).
Qed.

Lemma on_acknowledged_run (w : World) (event : json) (k : pykey) (u : UUID.t) :
  acknowledged_keys decode_data event = Some (k, u) →
  on_acknowledged decode_data event w
  = (Ok (),
     {| self := set_tasks (delete k (tasks (self w)))
                  (set_updates (delete u (updates (self w))) (self w));
        heap := heap w; trace := trace w |}).
Proof.
  unfold acknowledged_keys. intros Hk.
  destruct (field event "task_id") as [tid|] eqn:Htid; [|done].
  cbn in Hk.
  destruct (field tid "value") as [task_id|] eqn:Hval; [|done].
  cbn in Hk.
  destruct (hashable task_id) as [k0|] eqn:Hh; [|done].
  cbn in Hk.
  destruct (field event "uuid") as [uj|] eqn:Hu; [|done].
  cbn in Hk. destruct uj as [| | |s| |]; try done.
  destruct (decode_data s) as [bs|] eqn:Hdec; [|done].
  cbn in Hk.
  destruct (UUID.of_bytes bs) as [u0|] eqn:Hbs; [|done].
  cbn in Hk. injection Hk as -> ->.
  apply field_subscript in Htid, Hval, Hu. apply hashable_hash in Hh.
  unfold on_acknowledged, uuid_of. unfold_monad.
  by rewrite Htid, Hval, Hu, Hdec, Hbs, Hh.
Qed.

(** X4: a LAUNCH for a task id that is not tracked, followed by an
    ACKNOWLEDGED for that task id with any 16-byte token, leaves [tasks] as
    it was before the launch; the token's entry is gone from [updates]. *)
Theorem launch_then_acknowledged (w : World) (launch ack task_info event : json)
    (k : pykey) (u : UUID.t) :
  launched_task launch = Some (k, task_info) →
  tasks (self w) !! k = None →
  field ack "type" = Some (JStr "ACKNOWLEDGED") →
  field ack "acknowledged" = Some event →
  acknowledged_keys decode_data event = Some (k, u) →
  let r := handle_all decode_data [launch; ack] w in
  r.1 = Ok ()
  ∧ tasks (self r.2) = tasks (self w)
  ∧ updates (self r.2) = delete u (updates (self w)).
Proof.
  intros Hl Hfresh Hty Hev Hkeys.
  destruct (launch_step w launch task_info k Hl Hfresh) as (new & Hstep & _).
  cbn zeta. cbn [handle_all]. rewrite (bind_ok _ _ _ _ _ Hstep).
  unfold mbind, M_bind. rewrite handle_events_run.
  rewrite (dispatch_method1 decode_data ack event "ACKNOWLEDGED"
             (on_acknowledged decode_data)) by done.
  rewrite (on_acknowledged_run _ event k u Hkeys). cbn.
  split; [done |]. split; [by apply delete_insert_id | done].
Qed.

(** X5: an ACKNOWLEDGED event without a token that decodes to 16 bytes
    (no uuid field, a uuid that is not text, text that does not decode, a
    wrong length) makes [on_acknowledged] raise and removes nothing: the
    driver, the heap and the trace are as before. *)
Theorem acknowledged_without_token (w : World) (event : json) :
  acknowledged_token decode_data event = None →
  ∃ e, on_acknowledged decode_data event w = (Raise e, w).
Proof.
  intros Htok. unfold on_acknowledged. unfold_monad.
  destruct (subscript event "task_id") as [tid|e]; [|by eexists].
  destruct (subscript tid "value") as [task_id|e]; [|by eexists].
  destruct (subscript event "uuid") as [v|e] eqn:Hv; [|by eexists].
  assert (field event "uuid" = Some v) as Hf by (unfold field; by rewrite Hv).
  rewrite (uuid_of_token event v Hf) in Htok.
  destruct (uuid_of decode_data v) as [u|e]; [done | by eexists].
Qed.

(** X6: an ACKNOWLEDGED event with a 16-byte token and a task id that is
    not hashable (a list or an object) loses the token's entry of [updates]
    and then raises [TypeError]: [on_acknowledged] pops the update before it
    looks the task up, so [tasks] and everything else stay. *)
Theorem acknowledged_unhashable_task (w : World) (event task_id : json)
    (u : UUID.t) :
  (field event "task_id" ≫= λ tid, field tid "value") = Some task_id →
  hashable task_id = None →
  acknowledged_token decode_data event = Some u →
  on_acknowledged decode_data event w
  = (Raise (TypeError "unhashable type"),
     {| self := set_updates (delete u (updates (self w))) (self w);
        heap := heap w; trace := trace w |}).
Proof.
  intros Hid Hh Htok.
  destruct (field event "task_id") as [tid|] eqn:Htid; [|done].
  cbn in Hid.
  unfold acknowledged_token in Htok.
  destruct (field event "uuid") as [v|] eqn:Hv; [|done].
  pose proof (uuid_of_token event v Hv) as Hu.
  unfold acknowledged_token in Hu. rewrite Hv in Hu. cbn in Hu, Htok.
  rewrite Htok in Hu.
  apply field_subscript in Htid, Hid, Hv.
  unfold on_acknowledged, hash. unfold_monad.
  rewrite Htid, Hid, Hv.
  destruct (uuid_of decode_data v) as [u'|e]; [|done].
  injection Hu as ->. cbn. by rewrite Hh.
Qed.

(** *** Routing *)

(** What the dispatcher does with a message whose type is in the table *)
Lemma dispatch_found (message : json) (t : string) (h : handler) (w : World) :
  field message "type" = Some (JStr t) →
  _handlers decode_data !! KStr t = Some h →
  dispatch decode_data message w =
    if String.eqb t "SHUTDOWN" then call_handler h [] w
    else
      match subscript message (lower t) with
      | Ok arg => call_handler h [arg] w
      | Raise e => (Raise e, w)
      end.
Proof.
  intros Hty Hh. apply field_subscript in Hty.
  unfold dispatch, hash, str_lower. unfold_monad.
  rewrite Hty. cbn -[lookup _handlers]. rewrite Hh.
  cbn. destruct (String.eqb t "SHUTDOWN").
  - by destruct (call_handler h [] w) as [[[]|] ?].
  - destruct (subscript message (lower t)) as [arg|e]; [|done].
    by destruct (call_handler h [arg] w) as [[[]|] ?].
Qed.

Lemma handlers_known_some (t : string) :
  t ∈ known_event_types → is_Some (_handlers decode_data !! KStr t).
Proof.
  intros Hknown. rewrite (handlers_known decode_data t Hknown).
  repeat case_match; by eexists.
Qed.

Lemma subscript_missing (message : json) (k k' : string) (x : json) :
  field message k = Some x → field message k' = None →
  subscript message k' = Raise (KeyError k').
Proof.
  unfold field. destruct message as [| | | | |d]; try done. cbn.
  intros _. by destruct (Dict.get k' d).
Qed.

Lemma dispatch_missing_payload (message : json) (t : string) (w : World) :
  t ∈ known_event_types →
  t ≠ "SHUTDOWN" →
  field message "type" = Some (JStr t) →
  field message (lower t) = None →
  dispatch decode_data message w = (Raise (KeyError (lower t)), w).
Proof.
  intros Hknown Hne Hty Hpay.
  destruct (handlers_known_some t Hknown) as [h Hh].
  rewrite (dispatch_found message t h w Hty Hh).
  destruct (String.eqb_spec t "SHUTDOWN"); [done |].
  by rewrite (subscript_missing message "type" (lower t) _ Hty Hpay).
Qed.

Lemma on_subscribed_rejects (w : World) (info : json) :
  (ei ← field info "executor_info";
   fi ← field info "framework_info";
   ai ← field info "agent_info";
   eid ← field ei "executor_id";
   fid ← field fi "id";
   if py_eq eid (executor_id (self w)) && py_eq fid (framework_id (self w))
   then Some (ei, fi, ai) else None) = None →
  ∃ e, on_subscribed info w = (Raise e, w).
Proof.
  intros Hs. unfold field in Hs. unfold on_subscribed.
  unfold assert, mbind, M_bind, lift, get_self, raise, mret, M_ret.
  destruct (subscript info "executor_info") as [ei|e]; [|by eexists].
  cbn in Hs.
  destruct (subscript info "framework_info") as [fi|e]; [|by eexists].
  cbn in Hs.
  destruct (subscript info "agent_info") as [ai|e]; [|by eexists].
  cbn in Hs.
  destruct (subscript ei "executor_id") as [eid|e]; [|by eexists].
  cbn in Hs.
  destruct (py_eq eid (executor_id (self w))); cbn; [|by eexists].
  destruct (subscript fi "id") as [fid|e]; [|by eexists].
  cbn in Hs.
  destruct (py_eq fid (framework_id (self w))); cbn; [done | by eexists].
Qed.

(** X7: a SUBSCRIBED message that lacks one of executor_info,
    framework_info, agent_info or an identity field, or whose executor or
    framework id differs from the driver's, registers nothing: the handler
    raises with the world as it was, no callback runs, and the dispatcher
    logs the message and the exception. *)
Theorem subscribed_mismatch_is_rejected (w : World) (message : json) :
  field message "type" = Some (JStr "SUBSCRIBED") →
  subscribed_for (self w) message = None →
  ∃ e, dispatch decode_data message w = (Raise e, w)
       ∧ _handle_events decode_data message w
         = (Ok (), add_trace w (problem_log message e)).
Proof.
  intros Hty Hs.
  assert (∃ e, dispatch decode_data message w = (Raise e, w)) as [e He].
  { destruct (field message "subscribed") as [info|] eqn:Hinfo.
    - rewrite (dispatch_method1 decode_data message info "SUBSCRIBED"
                 on_subscribed) by done.
      apply on_subscribed_rejects.
      unfold subscribed_for in Hs. rewrite Hty, Hinfo in Hs. exact Hs.
    - eexists. apply (dispatch_missing_payload message "SUBSCRIBED");
        [unfold known_event_types; apply list_elem_of_here | done..]. }
  exists e. split; [exact He |]. by rewrite handle_events_run, He.
Qed.

(** X8: a SHUTDOWN message, whatever else it carries, starts the
    forced-kill timer with the grace period unless the driver is local,
    calls [on_shutdown] of the executor, and stops the connection; when the
    callback raises, the exception is logged and the connection is not
    stopped.  The driver and the heap do not change. *)
Theorem shutdown_sequence (w : World) (message : json) (f : Callable) :
  field message "type" = Some (JStr "SHUTDOWN") →
  executor (self w) !! "on_shutdown" = Some f →
  _handle_events decode_data message w
  = (Ok (),
     add_trace w
       ((if local (self w) then []
         else [DelayKill (grace_shutdown_period (self w))])
        ++ Callback "on_shutdown" []
        :: match f [] with
           | None => [ConnStop]
           | Some e => problem_log message e
           end)).
Proof.
  intros Hty Hf. rewrite handle_events_run.
  rewrite (dispatch_found message "SHUTDOWN" (Method0 on_shutdown) w)
    by done.
  change (String.eqb "SHUTDOWN" "SHUTDOWN") with true.
  cbn [call_handler].
  unfold on_shutdown, _delay_kill, call_executor, add_trace, problem_log.
  unfold_monad.
  destruct (local (self w)); cbn; rewrite Hf; cbn;
    destruct (f []); cbn; by rewrite <- ?app_assoc.
Qed.

(** X9: a message of type CLOSE never reaches the body of [on_close]
    through the dispatcher: the handler takes no argument and the dispatcher
    passes one, so the message is logged with a [KeyError] (no close field)
    or a [TypeError] and nothing else happens: no timer, no callback, no
    abort, no change of the driver. *)
Theorem close_message_is_dropped (w : World) (message : json) :
  field message "type" = Some (JStr "CLOSE") →
  ∃ e, _handle_events decode_data message w
       = (Ok (), add_trace w (problem_log message e))
       ∧ (e = KeyError "close"
          ∨ e = TypeError "wrong number of positional arguments").
Proof.
  intros Hty. rewrite handle_events_run.
  rewrite (dispatch_found message "CLOSE" (Method0 on_close) w) by done.
  change (String.eqb "CLOSE" "SHUTDOWN") with false.
  change (lower "CLOSE") with "close".
  cbn [call_handler].
  destruct (field message "close") as [x|] eqn:Hx.
  - apply field_subscript in Hx. rewrite Hx. eexists. split; [done |].
    by right.
  - rewrite (subscript_missing message "type" "close" _ Hty Hx).
    eexists. split; [done |]. by left.
Qed.

(** X10: a message without a type member (or one that is no object) is
    logged with the exception and dropped; the driver and the heap do not
    change and nothing but the two log records is added to the trace. *)
Theorem message_without_type_is_dropped (w : World) (message : json) :
  field message "type" = None →
  ∃ e, _handle_events decode_data message w
       = (Ok (), add_trace w (problem_log message e)).
Proof.
  intros Hty. rewrite handle_events_run. unfold dispatch, field in *.
  unfold_monad.
  destruct (subscript message "type") as [ty|e]; [done |]. by exists e.
Qed.

(** X11: a message of a known type other than SHUTDOWN that lacks the
    member named by the lower-case type is logged with [KeyError] of that
    name and dropped: no handler runs and nothing else changes. *)
Theorem known_event_without_payload (w : World) (message : json) (t : string) :
  t ∈ known_event_types →
  t ≠ "SHUTDOWN" →
  field message "type" = Some (JStr t) →
  field message (lower t) = None →
  _handle_events decode_data message w
  = (Ok (), add_trace w (problem_log message (KeyError (lower t)))).
Proof.
  intros Hknown Hne Hty Hpay. rewrite handle_events_run.
  by rewrite (dispatch_missing_payload message t w).
Qed.

(** X12: KILL, MESSAGE and ERROR messages are forwarded: the dispatcher
    calls [on_kill], [on_message], [on_error] of the executor once with the
    task_id, data, message member of the payload, as it arrived, and logs
    what the callback raises; the driver and the heap do not change. *)
Theorem events_are_forwarded (w : World) (message event x : json)
    (t key cb : string) (f : Callable) :
  (t, key, cb) ∈ forwarding →
  field message "type" = Some (JStr t) →
  field message (lower t) = Some event →
  field event key = Some x →
  executor (self w) !! cb = Some f →
  _handle_events decode_data message w
  = (Ok (),
     add_trace w
       (Callback cb [x]
        :: match f [x] with
           | None => []
           | Some e => problem_log message e
           end)).
Proof.
  intros Hin Hty Hev Hx Hf. rewrite handle_events_run.
  apply field_subscript in Hx.
  unfold forwarding in Hin.
  repeat (apply elem_of_cons in Hin as [Hin | Hin];
          [injection Hin as -> -> -> |]);
    [| | | by apply elem_of_nil in Hin].
  - rewrite (dispatch_method1 decode_data message event "KILL" on_kill)
      by done.
    unfold on_kill. unfold_monad. rewrite Hx.
    rewrite (call_executor_run _ _ f w Hf).
    destruct (f [x]); [|done].
    unfold add_trace, problem_log. cbn. by rewrite <- app_assoc.
  - rewrite (dispatch_method1 decode_data message event "MESSAGE" on_message)
      by done.
    unfold on_message. unfold_monad. rewrite Hx.
    rewrite (call_executor_run _ _ f w Hf).
    destruct (f [x]); [|done].
    unfold add_trace, problem_log. cbn. by rewrite <- app_assoc.
  - rewrite (dispatch_method1 decode_data message event "ERROR" on_error)
      by done.
    unfold on_error. unfold_monad. rewrite Hx.
    rewrite (call_executor_run _ _ f w Hf).
    destruct (f [x]); [|done].
    unfold add_trace, problem_log. cbn. by rewrite <- app_assoc.
Qed.

(** *** Outbound requests *)

(** X13: [message] never raises and keeps no state: it posts one request
    to the executor endpoint of the agent, a MESSAGE document with the
    driver's framework and executor id and the encoded bytes, writes one log
    record, and leaves the driver and the heap as they were. *)
Theorem message_is_stateless (data : list byte) (w : World) :
  ∃ req info,
    message encode_data data w = (Ok (), add_trace w [Fetch req; info])
    ∧ url req = leading_master (self w) ++ "/api/v1/executor"
    ∧ method req = "POST"
    ∧ field (body req) "type" = Some (JStr "MESSAGE")
    ∧ field (body req) "framework_id" = Some (framework_id (self w))
    ∧ field (body req) "executor_id" = Some (executor_id (self w))
    ∧ (field (body req) "message" ≫= λ m, field m "data")
        = Some (JStr (encode_data data))
    ∧ is_log info = true.
Proof.
  eexists _, _. split.
  - unfold message, _send, add_trace. unfold_monad. cbn.
    by rewrite <- app_assoc.
  - done.
Qed.

(** X14: [update] on a status that names no state or no task posts the
    UPDATE request with the defaults filled in, keeps the defaults in the
    caller's status, and only then raises [KeyError] ("state" first): the
    caller sees a failure although the update went out, and no log record
    is written. *)
Theorem update_raises_after_sending (o : Oracle) (p : loc) (w : World)
    (st : pydict) :
  heap w !! p = Some st →
  Dict.get "state" st = None ∨ Dict.get "task_id" st = None →
  let st' := with_defaults encode_data o st in
  update encode_data o p w
  = (Raise (KeyError (match Dict.get "state" st with
                      | None => "state"
                      | Some _ => "task_id"
                      end)),
     {| self := self w; heap := <[p := st']> (heap w);
        trace := trace w ++ [sent (self w) (update_payload (self w) st')] |}).
Proof.
  intros Hp Hmissing. cbn zeta.
  rewrite (update_run encode_data o p w st Hp). cbn zeta.
  rewrite !with_defaults_get.
  destruct (Dict.get "state" st) as [state|]; [|done].
  destruct Hmissing as [Hs | Ht]; [done |]. by rewrite Ht.
Qed.

Lemma elem_of_values {K} `{Countable K} (m : gmap K json) (v : json) :
  v ∈ values m ↔ ∃ k, m !! k = Some v.
Proof.
  unfold values. rewrite list_elem_of_fmap. split.
  - intros [[k v'] [-> Hin]]. exists k. by apply elem_of_map_to_list.
  - intros [k Hk]. exists (k, v). split; [done |].
    by apply elem_of_map_to_list.
Qed.

(** X15: the SUBSCRIBE request replays the tracked state itself: its
    unacknowledged_tasks are exactly the task infos in [tasks] and its
    unacknowledged_updates exactly the statuses in [updates]; the request
    goes to the executor endpoint of the agent. *)
Theorem gen_request_replays_tracked_state (handler : string) (w : World) :
  ∃ req ts us,
    gen_request handler w = (Ok req, w)
    ∧ url req = leading_master (self w) ++ "/api/v1/executor"
    ∧ header_callback req = Some handler
    ∧ (field (body req) "subscribe" ≫= λ s, field s "unacknowledged_tasks")
        = Some (JList ts)
    ∧ (field (body req) "subscribe" ≫= λ s, field s "unacknowledged_updates")
        = Some (JList us)
    ∧ (∀ v, v ∈ ts ↔ ∃ k, tasks (self w) !! k = Some v)
    ∧ (∀ v, v ∈ us ↔ ∃ u, updates (self w) !! u = Some v).
Proof.
  eexists _, (values (tasks (self w))), (values (updates (self w))).
  split; [reflexivity |]. cbn.
  do 4 (split; [done |]). split; intros v; apply elem_of_values.
Qed.

(** X16: a task launched through the dispatcher is in the
    unacknowledged_tasks of the next SUBSCRIBE request, beside the tasks
    that were tracked before. *)
Theorem launched_task_is_replayed (w : World) (message task_info : json)
    (k : pykey) (handler : string) :
  launched_task message = Some (k, task_info) →
  tasks (self w) !! k = None →
  let w' := (_handle_events decode_data message w).2 in
  ∃ req ts,
    (gen_request handler w').1 = Ok req
    ∧ (field (body req) "subscribe" ≫= λ s, field s "unacknowledged_tasks")
        = Some (JList ts)
    ∧ task_info ∈ ts
    ∧ List.length ts = S (size (tasks (self w)))
    ∧ ∀ k' v, tasks (self w) !! k' = Some v → v ∈ ts.
Proof.
  intros Hl Hfresh.
  destruct (launch_step w message task_info k Hl Hfresh) as (new & -> & _).
  cbn zeta. cbn [snd].
  eexists _, (values (<[k := task_info]> (tasks (self w)))).
  split; [reflexivity |]. cbn. split; [done |]. split; [| split].
  - apply elem_of_values. exists k. apply lookup_insert_eq.
  - rewrite values_length. by apply map_size_insert_None.
  - intros k' v Hk'. apply elem_of_values. exists k'.
    rewrite lookup_insert_ne; [done |]. intros ->. congruence.
Qed.

(** *** What every history keeps *)

Lemma invariant_ret {A} (I : World → Prop) (a : A) : invariant I (mret a).
Proof. by intros w. Qed.

Lemma invariant_raise {A} (I : World → Prop) (e : exn) :
  invariant I (raise (A := A) e).
Proof. by intros w. Qed.

Lemma invariant_lift {A} (I : World → Prop) (r : result A) :
  invariant I (lift r).
Proof. by intros w. Qed.

Lemma invariant_bind {A B} (I : World → Prop) (m : M A) (f : A → M B) :
  invariant I m → (∀ a, invariant I (f a)) → invariant I (m ≫= f).
Proof.
  intros Hm Hf w HI. specialize (Hm w HI). unfold mbind, M_bind.
  destruct (m w) as [[a|e] w1]; [|done]. by apply Hf.
Qed.

Lemma invariant_try_except {A} (I : World → Prop) (body : M A)
    (handler : exn → M A) :
  invariant I body → (∀ e, invariant I (handler e)) →
  invariant I (try_except body handler).
Proof.
  intros Hb Hh w HI. specialize (Hb w HI). unfold try_except.
  destruct (body w) as [[a|e] w1]; [done |]. by apply Hh.
Qed.

(** A property that the handlers of the dispatch table, [update] and
    [message] keep and that log records do not disturb is kept by every
    history of operations. *)
Lemma invariant_history (I : World → Prop) :
  (∀ e, is_log e = true → invariant I (emit e)) →
  (∀ k h args, _handlers decode_data !! k = Some h →
               invariant I (call_handler h args)) →
  (∀ o p, invariant I (update encode_data o p)) →
  (∀ data, invariant I (message encode_data data)) →
  ∀ ops w, I w → I (run_history encode_data decode_data ops w).
Proof.
  intros Hlog Hhandlers Hupdate Hmessage.
  assert (∀ m, invariant I (_handle_events decode_data m)) as Hevents.
  { intros m. unfold _handle_events, log_errors, log_warn, log_exception.
    apply invariant_try_except;
      [| intros e; apply invariant_bind;
         [by apply Hlog | intros _; apply invariant_raise]].
    apply invariant_try_except;
      [| intros e; apply invariant_bind; [by apply Hlog |];
         intros _; by apply Hlog].
    unfold dispatch.
    apply invariant_bind; [apply invariant_lift | intros ty].
    apply invariant_bind; [apply invariant_lift | intros k].
    destruct (_handlers decode_data !! k) as [h|] eqn:Hh; [| by apply Hlog].
    apply invariant_bind; [apply invariant_lift | intros _type].
    destruct (py_eq _type (JStr "SHUTDOWN")); [by eapply Hhandlers |].
    apply invariant_bind; [apply invariant_lift | intros name].
    apply invariant_bind; [apply invariant_lift | intros arg].
    by eapply Hhandlers. }
  intros ops. induction ops as [|op ops IH]; intros w HI; [done |].
  cbn [run_history]. apply IH.
  destruct op as [m| |o p|data|handler]; cbn [run_operation].
  - by apply Hevents.
  - by apply (Hhandlers (KStr "CLOSE") (Method0 on_close) []).
  - by apply Hupdate.
  - by apply Hmessage.
  - done.
Qed.

Lemma subscript_not_None (v x : json) (k : string) :
  subscript v k = Ok x → is_None v = false.
Proof. by destruct v. Qed.

Lemma task_key_intro (task_info tid task_id : json) (k : pykey) :
  subscript task_info "task_id" = Ok tid →
  subscript tid "value" = Ok task_id →
  hashable task_id = Some k →
  task_key task_info = Some k.
Proof.
  intros H1 H2 H3. unfold task_key, field. rewrite H1. cbn. by rewrite H2.
Qed.

(** Where a method body ends: the driver is reached by steps *)
Ltac finish_steps :=
  cbn;
  lazymatch goal with
  | |- rtc _ ?d ?d => reflexivity
  | |- rtc _ _ (set_framework_info _ (set_executor_info _ _)) =>
      apply rtc_once, step_register;
      [ unfold registered;
        match goal with H : _ || _ = true |- _ => by rewrite H end
      | eapply subscript_not_None; eassumption
      | eapply subscript_not_None; eassumption ]
  | |- rtc _ _ (set_tasks (<[_ := _]> _) _) =>
      apply rtc_once, step_track;
      [ eapply task_key_intro; eassumption
      | by eapply bool_decide_eq_true_1 ]
  | |- rtc _ ?d (set_tasks (delete ?k _) (set_updates (delete ?u _) ?d)) =>
      eapply rtc_l; [apply (step_forget_update d u) |];
      apply rtc_once;
      apply (step_forget_task (set_updates (delete u (updates d)) d) k)
  | |- rtc _ ?d (set_updates (delete ?u _) ?d) =>
      apply rtc_once; apply (step_forget_update d u)
  end.

(** Runs a handler on every outcome of its subscripts, tests and calls *)
Ltac run_handler :=
  intros;
  unfold call_handler, on_subscribed, on_message, on_launch, on_launch_group,
    on_kill, on_acknowledged, on_shutdown, on_error, on_close, _delay_kill,
    call_executor, uuid_of, hash;
  unfold_monad; cbn;
  repeat (case_match; cbn in *; simplify_eq).

Lemma handler_steps (k : pykey) (h : handler) (args : list json) (w : World) :
  _handlers decode_data !! k = Some h →
  rtc driver_step (self w) (self (call_handler h args w).2).
Proof.
  unfold _handlers. intros Hh. apply elem_of_list_to_map_2 in Hh.
  repeat (apply elem_of_cons in Hh as [Hh | Hh]; [injection Hh as -> -> |]);
    [.. | by apply elem_of_nil in Hh].
  all: destruct args as [|a [|b args]].
  all: run_handler; finish_steps.
Qed.

Lemma update_self (o : Oracle) (p : loc) (w : World) :
  self (update encode_data o p w).2 = self w.
Proof.
  destruct (heap w !! p) as [st|] eqn:Hp.
  - rewrite (update_run encode_data o p w st Hp). cbn zeta.
    destruct (Dict.get "state" _); [|done].
    by destruct (Dict.get "task_id" _).
  - unfold update, contains_at, deref. unfold_monad. by rewrite Hp.
Qed.

(** Every history changes the driver by steps only *)
Lemma history_steps (ops : list operation) (w : World) :
  rtc driver_step (self w)
    (self (run_history encode_data decode_data ops w)).
Proof.
  apply (invariant_history (λ w', rtc driver_step (self w) (self w')));
    [.. | reflexivity].
  - by intros e He w' Hw'.
  - intros k h args Hh w' Hw'. etrans; [exact Hw' |].
    by eapply handler_steps.
  - intros o p w' Hw'. by rewrite update_self.
  - by intros data w' Hw'.
Qed.

(** X17: whatever the history of inbound messages, transport closes,
    status updates, messages and SUBSCRIBE requests, the fields of the
    driver change only by a sequence of these steps: a task is filed under
    its own id where that id was free, the entry of a token or of a task id
    is dropped, the executor and framework info are stored while the driver
    is not registered. *)
Theorem driver_changes_by_steps (ops : list operation) (w : World) :
  rtc driver_step (self w)
    (self (run_history encode_data decode_data ops w)).
Proof. apply history_steps. Qed.

(** X18: no history changes what [__init__] configured: the endpoint, the
    framework and executor id, the grace period, the checkpoint and local
    flags and the executor object. *)
Theorem configuration_is_fixed (ops : list operation) (w : World) :
  configuration (self (run_history encode_data decode_data ops w))
  = configuration (self w).
Proof.
  induction (history_steps ops w) as [d | d1 d2 d3 Hstep _ IH]; [done |].
  rewrite IH. by destruct Hstep.
Qed.

Lemma well_keyed_step (d d' : Driver) :
  driver_step d d' → well_keyed d → well_keyed d'.
Proof.
  intros Hstep Hd k v. destruct Hstep as [ti k0 Hkey Hfree|u|k0|ei fi _ _ _];
    cbn.
  - intros [[-> ->] | [_ Hk]]%lookup_insert_Some; [done | by apply Hd].
  - apply Hd.
  - intros [_ Hk]%lookup_delete_Some. by apply Hd.
  - apply Hd.
Qed.

(** X19: every tracked task is filed under its own task id, and no history
    breaks that: if each entry of [tasks] has the key that its
    task_id.value hashes to, so has each entry after any history. *)
Theorem tasks_stay_well_keyed (ops : list operation) (w : World) :
  well_keyed (self w) →
  well_keyed (self (run_history encode_data decode_data ops w)).
Proof.
  intros Hw.
  induction (history_steps ops w) as [d | d1 d2 d3 Hstep _ IH]; [done |].
  apply IH. by eapply well_keyed_step.
Qed.

(** X20: registration is permanent: once the executor and framework info
    are stored, no history replaces or clears them. *)
Theorem registration_is_permanent (ops : list operation) (w : World) :
  registered (self w) = true →
  let d := self (run_history encode_data decode_data ops w) in
  executor_info d = executor_info (self w)
  ∧ framework_info d = framework_info (self w)
  ∧ registered d = true.
Proof.
  intros Hreg. cbn zeta.
  induction (history_steps ops w) as [d | d1 d2 d3 Hstep _ IH]; [done |].
  destruct Hstep as [ti k0 Hkey Hfree|u|k0|ei fi Hnot _ _]; cbn in IH.
  - by apply IH.
  - by apply IH.
  - by apply IH.
  - congruence.
Qed.

(** *** More edges of the handlers *)

(** X22: an ACKNOWLEDGED message is handled in silence: the dispatcher
    drops the two entries and returns, with no callback of the executor, no
    request and no log record, whether or not the entries were there. *)
Theorem acknowledged_is_silent (w : World) (message event : json) (k : pykey)
    (u : UUID.t) :
  field message "type" = Some (JStr "ACKNOWLEDGED") →
  field message "acknowledged" = Some event →
  acknowledged_keys decode_data event = Some (k, u) →
  _handle_events decode_data message w
  = (Ok (),
     {| self := set_tasks (delete k (tasks (self w)))
                  (set_updates (delete u (updates (self w))) (self w));
        heap := heap w; trace := trace w |}).
Proof.
  intros Hty Hev Hkeys. rewrite handle_events_run.
  rewrite (dispatch_method1 decode_data message event "ACKNOWLEDGED"
             (on_acknowledged decode_data)) by done.
  by rewrite (on_acknowledged_run _ event k u Hkeys).
Qed.

Lemma launch_rejects (w : World) (event : json) :
  (field event "task" ≫= task_key) = None →
  ∃ e, on_launch event w = (Raise e, w)
       ∧ on_launch_group event w = (Raise e, w).
Proof.
  intros Hk. unfold task_key, field in Hk.
  unfold on_launch, on_launch_group, hash.
  unfold mbind, M_bind, lift.
  destruct (subscript event "task") as [ti|e]; [|by eexists].
  cbn in Hk.
  destruct (subscript ti "task_id") as [tid|e]; [|by eexists].
  cbn in Hk.
  destruct (subscript tid "value") as [v|e]; [|by eexists].
  cbn in Hk. rewrite Hk. by eexists.
Qed.

(** X23: a LAUNCH or LAUNCH_GROUP message that carries no task, no task
    id, or a task id that is not hashable tracks nothing: the handler raises
    with the world as it was, the executor is not called, and the
    dispatcher logs the message and the exception. *)
Theorem malformed_launch_is_dropped (w : World) (message : json) (t : string) :
  t = "LAUNCH" ∨ t = "LAUNCH_GROUP" →
  field message "type" = Some (JStr t) →
  launched_task message = None →
  ∃ e, dispatch decode_data message w = (Raise e, w)
       ∧ _handle_events decode_data message w
         = (Ok (), add_trace w (problem_log message e)).
Proof.
  intros Ht Hty Hl.
  assert (∃ e, dispatch decode_data message w = (Raise e, w)) as [e He].
  { unfold launched_task in Hl. rewrite Hty in Hl. cbn in Hl.
    destruct (field message (lower t)) as [event|] eqn:Hev.
    - assert ((field event "task" ≫= task_key) = None) as Hk.
      { destruct Ht as [-> | ->]; cbn in Hl; unfold task_key;
          destruct (field event "task") as [ti|]; try done; cbn in *;
          destruct (field ti "task_id") as [tid|]; try done; cbn in *;
          destruct (field tid "value") as [v|]; try done; cbn in *;
          by destruct (hashable v). }
      destruct (launch_rejects w event Hk) as (e & Hone & Hgroup).
      exists e. destruct Ht as [-> | ->].
      + by rewrite (dispatch_method1 decode_data message event "LAUNCH"
                      on_launch).
      + by rewrite (dispatch_method1 decode_data message event "LAUNCH_GROUP"
                      on_launch_group).
    - eexists. apply (dispatch_missing_payload message t); try done.
      + unfold known_event_types. destruct Ht as [-> | ->]; set_solver.
      + by destruct Ht as [-> | ->]. }
  exists e. split; [exact He |]. by rewrite handle_events_run, He.
Qed.

(** X24: [update] consults the clock and the random source only for a
    field that is missing: on a status that has timestamp, uuid and source
    the call does the same whatever they would return, and the status is
    left untouched. *)
Theorem update_ignores_oracle (o o' : Oracle) (p : loc) (w : World)
    (st : pydict) :
  heap w !! p = Some st →
  (∀ k, k ∈ ["timestamp"; "uuid"; "source"] → Dict.contains k st = true) →
  update encode_data o p w = update encode_data o' p w
  ∧ heap (update encode_data o p w).2 = heap w.
Proof.
  intros Hp Hall.
  assert (∀ x, with_defaults encode_data x st = st) as Hst.
  { intros x. unfold with_defaults, status_defaults. cbn [foldl].
    unfold set_default. cbn [fst snd].
    rewrite (Hall "timestamp") by set_solver.
    rewrite (Hall "uuid") by set_solver.
    by rewrite (Hall "source") by set_solver. }
  split.
  - rewrite (update_run encode_data o p w st Hp),
      (update_run encode_data o' p w st Hp). cbn zeta. by rewrite !Hst.
  - rewrite (update_heap encode_data o p w st Hp), Hst. by apply insert_id.
Qed.

(** *** The forced-kill timer *)

Lemma kill_timers_app (t1 t2 : list effect) :
  kill_timers (t1 ++ t2) = (kill_timers t1 ++ kill_timers t2)%list.
Proof. apply List.filter_app. Qed.

(** Where a method body ends in a local driver: no timer was started *)
Ltac finish_local :=
  cbn; split; [assumption |];
  rewrite ?kill_timers_app; cbn; by rewrite ?app_nil_r.

Lemma handler_local (T : list effect) (k : pykey) (h : handler)
    (args : list json) :
  _handlers decode_data !! k = Some h →
  invariant (λ w, local (self w) = true ∧ kill_timers (trace w) = T)
    (call_handler h args).
Proof.
  unfold _handlers. intros Hh. apply elem_of_list_to_map_2 in Hh.
  repeat (apply elem_of_cons in Hh as [Hh | Hh]; [injection Hh as -> -> |]);
    [.. | by apply elem_of_nil in Hh].
  all: destruct args as [|a [|b args]].
  all: intros w [Hlocal HT].
  all: unfold call_handler, on_shutdown, on_close, _delay_kill; unfold_monad;
       rewrite ?Hlocal.
  all: run_handler; finish_local.
Qed.

(** X21: a driver in local mode never starts the forced-kill timer:
    whatever the history, SHUTDOWN messages and transport closes included,
    the trace holds no timer that it did not hold before. *)
Theorem local_never_arms_timer (ops : list operation) (w : World) :
  local (self w) = true →
  kill_timers (trace (run_history encode_data decode_data ops w))
  = kill_timers (trace w).
Proof.
  intros Hlocal.
  apply (invariant_history
           (λ w', local (self w') = true
                  ∧ kill_timers (trace w') = kill_timers (trace w)));
    [.. | done].
  - intros e He w' [Hl HT]. destruct e; try done; finish_local.
  - intros k h args Hh. by apply (handler_local _ k).
  - intros o p w' [Hl HT]. rewrite update_self. split; [done |].
    destruct (heap w' !! p) as [st|] eqn:Hp.
    + rewrite (update_run encode_data o p w' st Hp). cbn zeta.
      destruct (Dict.get "state" _); [destruct (Dict.get "task_id" _) |];
        cbn; rewrite kill_timers_app; cbn; by rewrite app_nil_r.
    + unfold update, contains_at, deref. unfold_monad. by rewrite Hp.
  - intros data w' [Hl HT]. unfold message, _send. unfold_monad.
    finish_local.
Qed.

End FurtherProofs.

(** ** The further properties on the sample driver *)

Lemma launch_tracks_task_witness :
  let w := Sample.world_of Sample.driver in
  let r := _handle_events Base64.decode_data (Sample.launch "T1") w in
  launched_task (Sample.launch "T1") = Some (KStr "T1", Sample.task "T1")
  ∧ tasks (self w) !! KStr "T1" = None
  ∧ r.1 = Ok ()
  ∧ tasks (self r.2) !! KStr "T1" = Some (Sample.task "T1")
  ∧ size (tasks (self r.2)) = 1%nat.
Proof.
  cbn zeta. split; [reflexivity |]. split; [reflexivity |].
  destruct (launch_tracks_task Base64.decode_data
              (Sample.world_of Sample.driver) (Sample.launch "T1")
              (Sample.task "T1") (KStr "T1") eq_refl eq_refl)
    as (Hok & _ & Hin & Hsize & _).
  split; [exact Hok |]. split; [exact Hin | exact Hsize].
Defined.

Lemma launches_are_counted_witness :
  let w := Sample.world_of Sample.busy_driver in
  let messages := [Sample.launch "T2"; Sample.launch_group "T3"] in
  let launched := [(KStr "T2", Sample.task "T2"); (KStr "T3", Sample.task "T3")] in
  let r := handle_all Base64.decode_data messages w in
  Forall2 (λ m kt, launched_task m = Some kt) messages launched
  ∧ NoDup launched.*1
  ∧ (∀ k, k ∈ launched.*1 → tasks (self w) !! k = None)
  ∧ r.1 = Ok ()
  ∧ size (tasks (self r.2)) = 3%nat
  ∧ tasks (self r.2) !! KStr "T3" = Some (Sample.task "T3")
  ∧ tasks (self r.2) !! KStr "T1" = Some (Sample.task "T1").
Proof.
  cbn zeta.
  assert (Forall2 (λ m kt, launched_task m = Some kt)
            [Sample.launch "T2"; Sample.launch_group "T3"]
            [(KStr "T2", Sample.task "T2"); (KStr "T3", Sample.task "T3")])
    as Hall by (repeat constructor).
  assert (NoDup [(KStr "T2", Sample.task "T2");
                 (KStr "T3", Sample.task "T3")].*1) as Hnodup.
  { cbn. apply NoDup_cons. split.
    - intros Hin. apply list_elem_of_singleton in Hin. discriminate.
    - apply NoDup_singleton. }
  assert (∀ k, k ∈ [(KStr "T2", Sample.task "T2");
                     (KStr "T3", Sample.task "T3")].*1 →
               tasks Sample.busy_driver !! k = None) as Hfresh.
  { intros k Hk. cbn in Hk.
    apply elem_of_cons in Hk as [-> | Hk]; [reflexivity |].
    apply list_elem_of_singleton in Hk as ->. reflexivity. }
  split; [exact Hall |]. split; [exact Hnodup |]. split; [exact Hfresh |].
  destruct (launches_are_counted Base64.decode_data _ _
              (Sample.world_of Sample.busy_driver) Hall Hnodup Hfresh)
    as (Hok & Hsize & Hin & Hout & _).
  split; [exact Hok |]. split; [exact Hsize |].
  split.
  - apply Hin. apply list_elem_of_further, list_elem_of_here.
  - rewrite Hout; [reflexivity |]. cbn. intros Hk.
    apply elem_of_cons in Hk as [Hk | Hk]; [discriminate |].
    apply list_elem_of_singleton in Hk. discriminate.
Defined.

Lemma launch_then_acknowledged_witness :
  let w := Sample.world_of Sample.busy_driver in
  let launch := Sample.launch "T2" in
  let ack := Sample.acknowledged_message "T2" Sample.token in
  let r := handle_all Base64.decode_data [launch; ack] w in
  launched_task launch = Some (KStr "T2", Sample.task "T2")
  ∧ tasks (self w) !! KStr "T2" = None
  ∧ field ack "type" = Some (JStr "ACKNOWLEDGED")
  ∧ field ack "acknowledged" = Some (Sample.acknowledged "T2" Sample.token)
  ∧ acknowledged_keys Base64.decode_data (Sample.acknowledged "T2" Sample.token)
    = Some (KStr "T2", Sample.token)
  ∧ r.1 = Ok ()
  ∧ tasks (self r.2) = tasks (self w)
  ∧ updates (self r.2) = delete Sample.token (updates (self w)).
Proof.
  cbn zeta. do 5 (split; [reflexivity |]).
  apply (launch_then_acknowledged Base64.decode_data
           (Sample.world_of Sample.busy_driver) (Sample.launch "T2")
           (Sample.acknowledged_message "T2" Sample.token)
           (Sample.task "T2") (Sample.acknowledged "T2" Sample.token)
           (KStr "T2") Sample.token); reflexivity.
Defined.

Lemma acknowledged_without_token_witness :
  let w := Sample.world_of Sample.busy_driver in
  acknowledged_token Base64.decode_data Sample.short_token_event = None
  ∧ ∃ e, on_acknowledged Base64.decode_data Sample.short_token_event w
         = (Raise e, w).
Proof.
  cbn zeta. split; [reflexivity |].
  apply (acknowledged_without_token Base64.decode_data
           (Sample.world_of Sample.busy_driver) Sample.short_token_event).
  reflexivity.
Defined.

Lemma acknowledged_unhashable_task_witness :
  let w := Sample.world_of Sample.busy_driver in
  let event := Sample.list_task_event in
  (field event "task_id" ≫= λ tid, field tid "value")
  = Some (JList [JStr "T1"])
  ∧ hashable (JList [JStr "T1"]) = None
  ∧ acknowledged_token Base64.decode_data event = Some Sample.token
  ∧ on_acknowledged Base64.decode_data event w
    = (Raise (TypeError "unhashable type"),
       {| self := set_updates (delete Sample.token (updates (self w))) (self w);
          heap := heap w; trace := trace w |}).
Proof.
  cbn zeta. do 3 (split; [reflexivity |]).
  apply (acknowledged_unhashable_task Base64.decode_data
           (Sample.world_of Sample.busy_driver) Sample.list_task_event
           (JList [JStr "T1"]) Sample.token); reflexivity.
Defined.

Lemma subscribed_mismatch_is_rejected_witness :
  let w := Sample.world_of Sample.driver in
  field Sample.subscribed_other "type" = Some (JStr "SUBSCRIBED")
  ∧ subscribed_for (self w) Sample.subscribed_other = None
  ∧ ∃ e, dispatch Base64.decode_data Sample.subscribed_other w = (Raise e, w)
         ∧ _handle_events Base64.decode_data Sample.subscribed_other w
           = (Ok (), add_trace w (problem_log Sample.subscribed_other e)).
Proof.
  cbn zeta. do 2 (split; [reflexivity |]).
  apply (subscribed_mismatch_is_rejected Base64.decode_data
           (Sample.world_of Sample.driver) Sample.subscribed_other);
    reflexivity.
Defined.

Lemma shutdown_sequence_witness :
  let w := Sample.world_of Sample.driver in
  field Sample.shutdown "type" = Some (JStr "SHUTDOWN")
  ∧ executor (self w) !! "on_shutdown" = Some Sample.returns
  ∧ _handle_events Base64.decode_data Sample.shutdown w
    = (Ok (),
       add_trace w [DelayKill 0; Callback "on_shutdown" []; ConnStop]).
Proof.
  cbn zeta. do 2 (split; [reflexivity |]).
  apply (shutdown_sequence Base64.decode_data (Sample.world_of Sample.driver)
           Sample.shutdown Sample.returns); reflexivity.
Defined.

Lemma close_message_is_dropped_witness :
  let w := Sample.world_of Sample.driver in
  field Sample.close "type" = Some (JStr "CLOSE")
  ∧ ∃ e, _handle_events Base64.decode_data Sample.close w
         = (Ok (), add_trace w (problem_log Sample.close e))
         ∧ (e = KeyError "close"
            ∨ e = TypeError "wrong number of positional arguments").
Proof.
  cbn zeta. split; [reflexivity |].
  apply (close_message_is_dropped Base64.decode_data
           (Sample.world_of Sample.driver) Sample.close).
  reflexivity.
Defined.

Lemma message_without_type_is_dropped_witness :
  let w := Sample.world_of Sample.busy_driver in
  let message := JDict [("kill", JDict [])] in
  field message "type" = None
  ∧ ∃ e, _handle_events Base64.decode_data message w
         = (Ok (), add_trace w (problem_log message e)).
Proof.
  cbn zeta. split; [reflexivity |].
  apply (message_without_type_is_dropped Base64.decode_data
           (Sample.world_of Sample.busy_driver) (JDict [("kill", JDict [])])).
  reflexivity.
Defined.

Lemma known_event_without_payload_witness :
  let w := Sample.world_of Sample.busy_driver in
  let message := JDict [("type", JStr "KILL")] in
  "KILL" ∈ known_event_types
  ∧ "KILL" ≠ "SHUTDOWN"
  ∧ field message "type" = Some (JStr "KILL")
  ∧ field message (lower "KILL") = None
  ∧ _handle_events Base64.decode_data message w
    = (Ok (), add_trace w (problem_log message (KeyError "kill"))).
Proof.
  cbn zeta.
  assert ("KILL" ∈ known_event_types) as Hknown.
  { unfold known_event_types. do 4 apply list_elem_of_further.
    apply list_elem_of_here. }
  assert ("KILL" ≠ "SHUTDOWN") as Hne by discriminate.
  split; [exact Hknown |]. split; [exact Hne |].
  do 2 (split; [reflexivity |]).
  apply (known_event_without_payload Base64.decode_data
           (Sample.world_of Sample.busy_driver) (JDict [("type", JStr "KILL")])
           "KILL" Hknown Hne); reflexivity.
Defined.

Lemma events_are_forwarded_witness :
  let w := Sample.world_of (Sample.driver_with Sample.failing_executor) in
  let message := Sample.kill "T1" in
  let event := JDict [("task_id", JDict [("value", JStr "T1")])] in
  let x := JDict [("value", JStr "T1")] in
  ("KILL", "task_id", "on_kill") ∈ forwarding
  ∧ field message "type" = Some (JStr "KILL")
  ∧ field message (lower "KILL") = Some event
  ∧ field event "task_id" = Some x
  ∧ executor (self w) !! "on_kill" = Some (Sample.raises "kill failed")
  ∧ _handle_events Base64.decode_data message w
    = (Ok (),
       add_trace w
         (Callback "on_kill" [x]
          :: problem_log message (ExecutorError "kill failed"))).
Proof.
  cbn zeta.
  assert (("KILL", "task_id", "on_kill") ∈ forwarding) as Hin
    by apply list_elem_of_here.
  split; [exact Hin |]. do 4 (split; [reflexivity |]).
  apply (events_are_forwarded Base64.decode_data
           (Sample.world_of (Sample.driver_with Sample.failing_executor))
           (Sample.kill "T1")
           (JDict [("task_id", JDict [("value", JStr "T1")])])
           (JDict [("value", JStr "T1")])
           "KILL" "task_id" "on_kill" (Sample.raises "kill failed") Hin);
    reflexivity.
Defined.

Lemma update_raises_after_sending_witness :
  let w := Sample.world_with_status Sample.stateless in
  let st' := with_defaults Base64.encode_data Sample.oracle Sample.stateless in
  heap w !! 0%nat = Some Sample.stateless
  ∧ (Dict.get "state" Sample.stateless = None
     ∨ Dict.get "task_id" Sample.stateless = None)
  ∧ update Base64.encode_data Sample.oracle 0%nat w
    = (Raise (KeyError "state"),
       {| self := self w; heap := <[0%nat := st']> (heap w);
          trace := [sent (self w) (update_payload (self w) st')] |}).
Proof.
  cbn zeta. split; [reflexivity |].
  assert (Dict.get "state" Sample.stateless = None
          ∨ Dict.get "task_id" Sample.stateless = None) as Hmissing
    by (left; reflexivity).
  split; [exact Hmissing |].
  exact (update_raises_after_sending Base64.encode_data Sample.oracle 0%nat
           (Sample.world_with_status Sample.stateless) Sample.stateless
           eq_refl Hmissing).
Defined.

Lemma launched_task_is_replayed_witness :
  let w := Sample.world_of Sample.busy_driver in
  let w' := (_handle_events Base64.decode_data (Sample.launch "T2") w).2 in
  launched_task (Sample.launch "T2") = Some (KStr "T2", Sample.task "T2")
  ∧ tasks (self w) !! KStr "T2" = None
  ∧ ∃ req ts,
      (gen_request "on_headers" w').1 = Ok req
      ∧ (field (body req) "subscribe" ≫= λ s, field s "unacknowledged_tasks")
          = Some (JList ts)
      ∧ Sample.task "T2" ∈ ts
      ∧ List.length ts = 2%nat
      ∧ ∀ k' v, tasks (self w) !! k' = Some v → v ∈ ts.
Proof.
  cbn zeta. do 2 (split; [reflexivity |]).
  apply (launched_task_is_replayed Base64.decode_data
           (Sample.world_of Sample.busy_driver) (Sample.launch "T2")
           (Sample.task "T2") (KStr "T2") "on_headers"); reflexivity.
Defined.

Lemma tasks_stay_well_keyed_witness :
  let w := {| self := Sample.busy_driver; heap := {[ 0%nat := Sample.running ]};
              trace := [] |} in
  well_keyed (self w)
  ∧ well_keyed (self (run_history Base64.encode_data Base64.decode_data
                        Sample.history w)).
Proof.
  cbn zeta.
  assert (well_keyed Sample.busy_driver) as Hw.
  { intros k v Hk. cbn in Hk.
    apply lookup_singleton_Some in Hk as [<- <-]. reflexivity. }
  split; [exact Hw |].
  exact (tasks_stay_well_keyed Base64.encode_data Base64.decode_data
           Sample.history
           {| self := Sample.busy_driver;
              heap := {[ 0%nat := Sample.running ]}; trace := [] |} Hw).
Defined.

Lemma registration_is_permanent_witness :
  let w := {| self := Sample.registered_driver;
              heap := {[ 0%nat := Sample.running ]}; trace := [] |} in
  let d := self (run_history Base64.encode_data Base64.decode_data
                   Sample.history w) in
  registered (self w) = true
  ∧ executor_info d = JDict [("executor_id", JDict [("value", JStr "E1")])]
  ∧ framework_info d = JDict [("id", JDict [("value", JStr "F1")])]
  ∧ registered d = true.
Proof.
  cbn zeta. split; [reflexivity |].
  exact (registration_is_permanent Base64.encode_data Base64.decode_data
           Sample.history
           {| self := Sample.registered_driver;
              heap := {[ 0%nat := Sample.running ]}; trace := [] |} eq_refl).
Defined.

Lemma local_never_arms_timer_witness :
  let w := {| self := Sample.local_driver;
              heap := {[ 0%nat := Sample.running ]}; trace := [] |} in
  local (self w) = true
  ∧ kill_timers (trace (run_history Base64.encode_data Base64.decode_data
                          Sample.history w)) = [].
Proof.
  cbn zeta. split; [reflexivity |].
  exact (local_never_arms_timer Base64.encode_data Base64.decode_data
           Sample.history
           {| self := Sample.local_driver;
              heap := {[ 0%nat := Sample.running ]}; trace := [] |} eq_refl).
Defined.

Lemma acknowledged_is_silent_witness :
  let w := Sample.world_of Sample.busy_driver in
  let message := Sample.acknowledged_message "T1" Sample.token in
  let event := Sample.acknowledged "T1" Sample.token in
  field message "type" = Some (JStr "ACKNOWLEDGED")
  ∧ field message "acknowledged" = Some event
  ∧ acknowledged_keys Base64.decode_data event = Some (KStr "T1", Sample.token)
  ∧ _handle_events Base64.decode_data message w
    = (Ok (),
       {| self := set_tasks (delete (KStr "T1") (tasks (self w)))
                    (set_updates (delete Sample.token (updates (self w)))
                       (self w));
          heap := heap w; trace := trace w |}).
Proof.
  cbn zeta. do 3 (split; [reflexivity |]).
  apply (acknowledged_is_silent Base64.decode_data
           (Sample.world_of Sample.busy_driver)
           (Sample.acknowledged_message "T1" Sample.token)
           (Sample.acknowledged "T1" Sample.token) (KStr "T1") Sample.token);
    reflexivity.
Defined.

Lemma malformed_launch_is_dropped_witness :
  let w := Sample.world_of Sample.busy_driver in
  ("LAUNCH" = "LAUNCH" ∨ "LAUNCH" = "LAUNCH_GROUP")
  ∧ field Sample.empty_launch "type" = Some (JStr "LAUNCH")
  ∧ launched_task Sample.empty_launch = None
  ∧ ∃ e, dispatch Base64.decode_data Sample.empty_launch w = (Raise e, w)
         ∧ _handle_events Base64.decode_data Sample.empty_launch w
           = (Ok (), add_trace w (problem_log Sample.empty_launch e)).
Proof.
  cbn zeta.
  assert ("LAUNCH" = "LAUNCH" ∨ "LAUNCH" = "LAUNCH_GROUP") as Ht
    by (left; reflexivity).
  split; [exact Ht |]. do 2 (split; [reflexivity |]).
  apply (malformed_launch_is_dropped Base64.decode_data
           (Sample.world_of Sample.busy_driver) Sample.empty_launch "LAUNCH" Ht);
    reflexivity.
Defined.

Lemma update_ignores_oracle_witness :
  let w := Sample.world_with_status Sample.complete in
  heap w !! 0%nat = Some Sample.complete
  ∧ (∀ k, k ∈ ["timestamp"; "uuid"; "source"] →
          Dict.contains k Sample.complete = true)
  ∧ update Base64.encode_data Sample.oracle 0%nat w
    = update Base64.encode_data Sample.later 0%nat w
  ∧ heap (update Base64.encode_data Sample.oracle 0%nat w).2 = heap w.
Proof.
  cbn zeta.
  assert (∀ k, k ∈ ["timestamp"; "uuid"; "source"] →
               Dict.contains k Sample.complete = true) as Hall.
  { intros k Hk.
    repeat (apply elem_of_cons in Hk as [-> | Hk]; [reflexivity |]).
    by apply elem_of_nil in Hk. }
  split; [reflexivity |]. split; [exact Hall |].
  exact (update_ignores_oracle Base64.encode_data Sample.oracle Sample.later
           0%nat (Sample.world_with_status Sample.complete) Sample.complete
           eq_refl Hall).
Defined.
